(** * ETL pipeline: HTTP download, stage and load into a warehouse table

    Shallow embedding of [lambda_function.py].  The program is a linear
    sequence of effectful calls, so it is modelled in a state-and-exception
    monad [Py] over a [World] that carries everything the program can
    observe or change: the local filesystem, the process environment, the
    standard output, the warehouse connection and cursor handles, the
    statements sent to the warehouse and the warehouse itself.

    The libraries the program calls (toml, requests, the Snowflake
    connector) and the faults of the operating system are an interface,
    [Platform]; every theorem holds for every implementation of it. *)

From Stdlib Require Import ZArith Strings.Byte Strings.Ascii.
From stdpp Require Import gmap strings list pretty.

Local Open Scope string_scope.
Local Open Scope Z_scope.

(** ** Data model *)

(** The parsed configuration document: sections of string-valued keys
    ([local], [source], [snowflake]). *)
Abbreviation Config := (gmap string (gmap string string)).

(** What [requests.get] hands back once redirects have been followed. *)
Record Response := mkResponse {
  status_code : Z;
  reason : string;
  resp_url : string;
  content : list byte
}.

(** The instances of Python's [Exception] the pipeline can meet. *)
Inductive Exception :=
| KeyError (key : string)
| FileNotFoundError (path : string)
| OSError (msg : string)
| HTTPError (status : Z) (why url : string)
| RequestException (msg : string)
| TomlDecodeError (msg : string)
| SnowflakeError (msg : string).

(** [str(e)]. *)
Definition str (e : Exception) : string :=
  match e with
  | KeyError key => "'" +:+ key +:+ "'"
  | FileNotFoundError path =>
      "[Errno 2] No such file or directory: '" +:+ path +:+ "'"
  | OSError msg => msg
  | HTTPError status why url =>
      pretty status +:+
      (if status <? 500 then " Client Error: " else " Server Error: ") +:+
      why +:+ " for url: " +:+ url
  | RequestException msg => msg
  | TomlDecodeError msg => msg
  | SnowflakeError msg => msg
  end.

(** Keyword arguments of [sf.connect]; [None] is Python's [None]. *)
Record ConnectArgs := mkConnectArgs {
  user : option string;
  password : option string;
  account : string;
  warehouse : string;
  database : string;
  schema : string;
  role : string
}.

(** Life cycle of a connection or a cursor. *)
Inductive Handle := Absent | Open | Closed.

(** The value returned by the entry point. *)
Record LambdaResult := mkLambdaResult {
  statusCode : Z;
  body : string
}.

(** ** The platform interface *)

Class Platform := {
  (** state of the data warehouse *)
  Warehouse : Type;
  (** [toml.loads] on the bytes of the configuration file *)
  toml_loads : list byte -> Exception + Config;
  (** [requests.get(url)]: a response, or a network fault *)
  requests_get : string -> Exception + Response;
  (** fault of [open(path, 'wb')], if any *)
  open_fault : string -> option Exception;
  (** fault of [file.write(data)], if any, and how many bytes got through *)
  write_fault : string -> list byte -> option (nat * Exception);
  (** fault of [sf.connect(...)], if any *)
  connect_fault : ConnectArgs -> option Exception;
  (** fault of [conn.cursor()], if any *)
  cursor_fault : option Exception;
  (** [cursor.execute(stmt)]: the warehouse afterwards, and the error raised *)
  execute : string -> Warehouse -> Warehouse * option Exception;
  (** what the connector's [conn.__exit__] does to the warehouse before it
      closes the session (with autocommit off it commits, or rolls back
      when an exception is passing; with autocommit on, nothing) *)
  session_exit : option Exception -> Warehouse -> Warehouse
}.

Section Pipeline.
Context `{P : Platform}.

Record World := mkWorld {
  w_fs : gmap string (list byte);
  w_env : gmap string string;
  w_stdout : list string;
  w_open_files : list string;
  w_conn : Handle;
  w_cursor : Handle;
  w_connect_calls : list ConnectArgs;
  w_sql : list string;
  w_warehouse : Warehouse
}.

Definition set_fs (f : gmap string (list byte) -> gmap string (list byte))
    (w : World) : World :=
  mkWorld (f (w_fs w)) (w_env w) (w_stdout w) (w_open_files w) (w_conn w)
          (w_cursor w) (w_connect_calls w) (w_sql w) (w_warehouse w).

Definition set_stdout (f : list string -> list string) (w : World) : World :=
  mkWorld (w_fs w) (w_env w) (f (w_stdout w)) (w_open_files w) (w_conn w)
          (w_cursor w) (w_connect_calls w) (w_sql w) (w_warehouse w).

Definition set_open_files (f : list string -> list string) (w : World) : World :=
  mkWorld (w_fs w) (w_env w) (w_stdout w) (f (w_open_files w)) (w_conn w)
          (w_cursor w) (w_connect_calls w) (w_sql w) (w_warehouse w).

Definition set_conn (h : Handle) (w : World) : World :=
  mkWorld (w_fs w) (w_env w) (w_stdout w) (w_open_files w) h
          (w_cursor w) (w_connect_calls w) (w_sql w) (w_warehouse w).

Definition set_cursor (h : Handle) (w : World) : World :=
  mkWorld (w_fs w) (w_env w) (w_stdout w) (w_open_files w) (w_conn w)
          h (w_connect_calls w) (w_sql w) (w_warehouse w).

Definition log_connect (a : ConnectArgs) (w : World) : World :=
  mkWorld (w_fs w) (w_env w) (w_stdout w) (w_open_files w) (w_conn w)
          (w_cursor w) (w_connect_calls w ++ [a]) (w_sql w) (w_warehouse w).

Definition set_warehouse (f : Warehouse -> Warehouse) (w : World) : World :=
  mkWorld (w_fs w) (w_env w) (w_stdout w) (w_open_files w) (w_conn w)
          (w_cursor w) (w_connect_calls w) (w_sql w) (f (w_warehouse w)).

Definition set_sql (stmt : string) (wh : Warehouse) (w : World) : World :=
  mkWorld (w_fs w) (w_env w) (w_stdout w) (w_open_files w) (w_conn w)
          (w_cursor w) (w_connect_calls w) (w_sql w ++ [stmt]) wh.

(** ** The monad of Python statements *)

Definition Py (A : Type) : Type := World -> (Exception + A) * World.

Definition ret {A} (a : A) : Py A := fun w => (inr a, w).

Definition raise {A} (e : Exception) : Py A := fun w => (inl e, w).

Definition bind {A B} (m : Py A) (k : A -> Py B) : Py B :=
  fun w =>
    match m w with
    | (inl e, w1) => (inl e, w1)
    | (inr a, w1) => k a w1
    end.

Definition lift {A} (r : Exception + A) : Py A := fun w => (r, w).

(** [with enter as v: body]: [exit] is the manager's [__exit__]; it runs
    on every way out of [body] and is told the exception that is passing,
    if any.  The managers of this program never swallow the exception. *)
Definition with_ {A B} (enter : Py A) (exit : A -> option Exception -> Py unit)
    (body : A -> Py B) : Py B :=
  fun w =>
    match enter w with
    | (inl e, w1) => (inl e, w1)
    | (inr a, w1) =>
        match body a w1 with
        | (inl e, w2) =>
            match exit a (Some e) w2 with
            | (inl e', w3) => (inl e', w3)
            | (inr _, w3) => (inl e, w3)
            end
        | (inr b, w2) =>
            match exit a None w2 with
            | (inl e', w3) => (inl e', w3)
            | (inr _, w3) => (inr b, w3)
            end
        end
    end.

(** [try: body except Exception as e: handler(e)]. *)
Definition try_except {A} (body : Py A) (handler : Exception -> Py A) : Py A :=
  fun w =>
    match body w with
    | (inl e, w1) => handler e w1
    | (inr a, w1) => (inr a, w1)
    end.

End Pipeline.

Declare Scope py_scope.
Delimit Scope py_scope with py.
Notation "x <- m ;; k" := (bind m (fun x => k))
  (at level 100, m at next level, right associativity) : py_scope.
Notation "m ;;; k" := (bind m (fun _ => k))
  (at level 100, right associativity) : py_scope.
Local Open Scope py_scope.

Section Program.
Context `{P : Platform}.

(** ** Built-ins and library calls *)

(** [print(s)] *)
Definition print (s : string) : Py unit :=
  fun w => (inr tt, set_stdout (fun out => (out ++ [s])%list) w).

(** [d[k]] *)
Definition getitem {V} (d : gmap string V) (k : string) : Py V :=
  match d !! k with
  | Some v => ret v
  | None => raise (KeyError k)
  end.

(** [os.getenv(k)] *)
Definition os_getenv (k : string) : Py (option string) :=
  fun w => (inr (w_env w !! k), w).

Definition startswith_sep (s : string) : bool :=
  match s with
  | String c _ => bool_decide (c = "/"%char)
  | EmptyString => false
  end.

Fixpoint endswith_sep (s : string) : bool :=
  match s with
  | EmptyString => false
  | String c EmptyString => bool_decide (c = "/"%char)
  | String _ rest => endswith_sep rest
  end.

(** [os.path.join(a, b)] of [posixpath]. *)
Definition os_path_join (a b : string) : string :=
  if startswith_sep b then b
  else if bool_decide (a = EmptyString) || endswith_sep a then a +:+ b
  else a +:+ "/" +:+ b.

(** [toml.load(path)]: open and read the file, then parse it. *)
Definition toml_load (path : string) : Py Config :=
  fun w =>
    match w_fs w !! path with
    | None => (inl (FileNotFoundError path), w)
    | Some text => (toml_loads text, w)
    end.

(** [response.raise_for_status()] of [requests]: it raises [HTTPError]
    when [400 <= status_code < 500] (client error) or
    [500 <= status_code < 600] (server error), and returns otherwise. *)
Definition raise_for_status (r : Response) : Py unit :=
  if (400 <=? status_code r) && (status_code r <? 600)
  then raise (HTTPError (status_code r) (reason r) (resp_url r))
  else ret tt.

(** [open(path, 'wb')]: the file is created or truncated. *)
Definition open_wb (path : string) : Py string :=
  fun w =>
    match open_fault path with
    | Some e => (inl e, w)
    | None =>
        (inr path, set_open_files (cons path) (set_fs <[path := []]> w))
    end.

(** [file.write(data)]: [data] goes after what the file holds. *)
Definition file_write (file : string) (data : list byte) : Py unit :=
  fun w =>
    let old := default [] (w_fs w !! file) in
    match write_fault file data with
    | Some (n, e) => (inl e, set_fs <[file := (old ++ take n data)%list]> w)
    | None => (inr tt, set_fs <[file := (old ++ data)%list]> w)
    end.

(** [file.__exit__]: close. *)
Definition file_close (file : string) (exc : option Exception) : Py unit :=
  fun w =>
    (inr tt, set_open_files (filter (fun p => p ≠ file)) w).

(** [sf.connect(...)] with the keyword arguments [args] *)
Definition sf_connect (args : ConnectArgs) : Py unit :=
  fun w =>
    let w1 := log_connect args w in
    match connect_fault args with
    | Some e => (inl e, w1)
    | None => (inr tt, set_conn Open w1)
    end.

(** [conn.__exit__]: settle the session, then close the connection. *)
Definition conn_exit (conn : unit) (exc : option Exception) : Py unit :=
  fun w => (inr tt, set_conn Closed (set_warehouse (session_exit exc) w)).

(** [conn.cursor()] *)
Definition conn_cursor (conn : unit) : Py unit :=
  fun w =>
    match cursor_fault with
    | Some e => (inl e, w)
    | None => (inr tt, set_cursor Open w)
    end.

(** [cursor.__exit__]: close the cursor. *)
Definition cursor_exit (cursor : unit) (exc : option Exception) : Py unit :=
  fun w => (inr tt, set_cursor Closed w).

(** [cursor.execute(stmt)] *)
Definition cursor_execute (cursor : unit) (stmt : string) : Py unit :=
  fun w =>
    let '(wh, r) := execute stmt (w_warehouse w) in
    let w1 := set_sql stmt wh w in
    match r with
    | Some e => (inl e, w1)
    | None => (inr tt, w1)
    end.

(** ** The program *)

(** [config[section][key]] *)
Definition config_get (config : Config) (section key : string) : Py string :=
  sec <- getitem config section ;;
  getitem sec key.

Definition load_config : Py Config :=
  toml_load "config.toml".

Definition download_file (url destination_path : string) : Py unit :=
  response <- lift (requests_get url) ;;
  raise_for_status response ;;;
  with_ (open_wb destination_path) file_close
    (fun file => file_write file (content response)).

Definition establish_snowflake_connection (config : Config) : Py unit :=
  user <- os_getenv "SNOWFLAKE_USER" ;;
  password <- os_getenv "SNOWFLAKE_PASSWORD" ;;
  account <- config_get config "snowflake" "account" ;;
  warehouse <- config_get config "snowflake" "warehouse" ;;
  database <- config_get config "snowflake" "database" ;;
  schema <- config_get config "snowflake" "schema" ;;
  role <- config_get config "snowflake" "role" ;;
  sf_connect (mkConnectArgs user password account warehouse database schema role).

(** The texts of the statements of [prepare_snowflake_stage], in the order
    of its lines. *)
Definition stmt_file_format : string :=
  "CREATE OR REPLACE FILE FORMAT COMMA_CSV TYPE ='CSV' FIELD_DELIMITER = ',';".

Definition stmt_stage (stage_name : string) : string :=
  "CREATE OR REPLACE STAGE " +:+ stage_name +:+ " FILE_FORMAT = COMMA_CSV".

Definition stmt_put (file_path stage_name : string) : string :=
  "PUT 'file://" +:+ file_path +:+ "' @" +:+ stage_name.

Definition stmt_list (stage_name : string) : string :=
  "LIST @" +:+ stage_name.

Definition stmt_truncate (schema table : string) : string :=
  "TRUNCATE TABLE " +:+ schema +:+ "." +:+ table +:+ ";".

Definition stmt_copy (schema table stage_name file_name : string) : string :=
  "COPY INTO " +:+ schema +:+ "." +:+ table +:+ " FROM @" +:+ stage_name +:+
  "/" +:+ file_name +:+ " FILE_FORMAT = COMMA_CSV, ON_ERROR = 'CONTINUE';".

Definition prepare_snowflake_stage (cursor : unit)
    (stage_name schema table file_path file_name : string) : Py unit :=
  cursor_execute cursor stmt_file_format ;;;
  cursor_execute cursor (stmt_stage stage_name) ;;;
  cursor_execute cursor (stmt_put file_path stage_name) ;;;
  cursor_execute cursor (stmt_list stage_name) ;;;
  cursor_execute cursor (stmt_truncate schema table) ;;;
  cursor_execute cursor (stmt_copy schema table stage_name file_name).

(** The warehouse-interaction block of [upload_file_to_snowflake]: its two
    nested [with] statements. *)
Definition warehouse_block (config : Config) (local_file_path : string)
    : Py unit :=
  with_ (establish_snowflake_connection config) conn_exit (fun conn =>
    with_ (conn_cursor conn) cursor_exit (fun cursor =>
      stage_name <- config_get config "snowflake" "stage_name" ;;
      schema <- config_get config "snowflake" "schema" ;;
      table <- config_get config "snowflake" "table" ;;
      file_name <- config_get config "local" "file_name" ;;
      prepare_snowflake_stage cursor stage_name schema table
        local_file_path file_name)).

(** The local path computed by [upload_file_to_snowflake]. *)
Definition local_file_path_of (config : Config) : Py string :=
  destination_folder <- config_get config "local" "destination_folder" ;;
  file_name <- config_get config "local" "file_name" ;;
  ret (os_path_join destination_folder file_name).

Definition upload_file_to_snowflake : Py unit :=
  config <- load_config ;;
  local_file_path <- local_file_path_of config ;;
  url <- config_get config "source" "url" ;;
  download_file url local_file_path ;;;
  warehouse_block config local_file_path ;;;
  print "File uploaded to Snowflake successfully.".

Definition lambda_handler {Event Context : Type}
    (event : Event) (context : Context) : Py LambdaResult :=
  try_except
    (upload_file_to_snowflake ;;;
     ret (mkLambdaResult 200 "File uploaded to Snowflake successfully."))
    (fun e =>
       print ("Error: " +:+ str e) ;;;
       ret (mkLambdaResult 500 ("Error uploading file to Snowflake: " +:+ str e))).

End Program.

(** ** A small concrete platform

    One warehouse table held as its list of rows, in a session with
    autocommit on; [TRUNCATE TABLE] empties the table and a successful
    [COPY INTO] adds the rows of the staged file.  The HTTP answer and the
    fault of the final [COPY] are chosen per instance. *)

Definition demo_config : Config :=
  {[ "local" := {[ "destination_folder" := "/tmp"; "file_name" := "data.csv" ]};
     "source" := {[ "url" := "https://example.com/data.csv" ]};
     "snowflake" := {[ "account" := "acme"; "warehouse" := "WH";
                       "database" := "DB"; "schema" := "PUBLIC";
                       "role" := "LOADER"; "stage_name" := "MY_STAGE";
                       "table" := "SALES" ]} ]}.

Definition demo_execute (copy_fault : option Exception)
    (stmt : string) (rows : list string) : list string * option Exception :=
  if String.prefix "TRUNCATE TABLE " stmt then ([], None)
  else if String.prefix "COPY INTO " stmt then
    match copy_fault with
    | Some e => (rows, Some e)
    | None => ((rows ++ ["1,2,3"; "4,5,6"])%list, None)
    end
  else (rows, None).

Definition demo_platform (answer : Exception + Response)
    (copy_fault : option Exception) : Platform :=
  {| Warehouse := list string;
     toml_loads := fun _ => inr demo_config;
     requests_get := fun _ => answer;
     open_fault := fun _ => None;
     write_fault := fun _ _ => None;
     connect_fault := fun _ => None;
     cursor_fault := None;
     execute := demo_execute copy_fault;
     session_exit := fun _ rows => rows |}.

Definition demo_body : list byte := [x31; x2c; x32; x2c; x33; x0a].

Definition demo_old_file : list byte := [x6f; x6c; x64].

Definition response_with (status : Z) (why : string) : Response :=
  mkResponse status why "https://example.com/data.csv" demo_body.

Definition demo_ok : Platform :=
  demo_platform (inr (response_with 200 "OK")) None.

Definition demo_copy_fails : Platform :=
  demo_platform (inr (response_with 200 "OK"))
                (Some (SnowflakeError "Numeric value 'x' is not recognized")).

Definition demo_not_found : Platform :=
  demo_platform (inr (response_with 404 "Not Found")) None.

Definition demo_multiple_choices : Platform :=
  demo_platform (inr (response_with 300 "Multiple Choices")) None.

Definition demo_network_down : Platform :=
  demo_platform (inl (RequestException "Connection refused")) None.

(** The disk is full after three bytes of any write. *)
Definition demo_disk_full : Platform :=
  {| Warehouse := list string;
     toml_loads := fun _ => inr demo_config;
     requests_get := fun _ => inr (response_with 200 "OK");
     open_fault := fun _ => None;
     write_fault := fun _ _ =>
       Some (3%nat, OSError "[Errno 28] No space left on device");
     connect_fault := fun _ => None;
     cursor_fault := None;
     execute := demo_execute None;
     session_exit := fun _ rows => rows |}.

(** The upload into the stage is refused. *)
Definition demo_put_fails : Platform :=
  {| Warehouse := list string;
     toml_loads := fun _ => inr demo_config;
     requests_get := fun _ => inr (response_with 200 "OK");
     open_fault := fun _ => None;
     write_fault := fun _ _ => None;
     connect_fault := fun _ => None;
     cursor_fault := None;
     execute := fun stmt rows =>
       if String.prefix "PUT " stmt
       then (rows, Some (SnowflakeError "Insufficient privileges on stage"))
       else demo_execute None stmt rows;
     session_exit := fun _ rows => rows |}.

(** The configuration file parses to [config]. *)
Definition demo_with_config (config : Config) : Platform :=
  {| Warehouse := list string;
     toml_loads := fun _ => inr config;
     requests_get := fun _ => inr (response_with 200 "OK");
     open_fault := fun _ => None;
     write_fault := fun _ _ => None;
     connect_fault := fun _ => None;
     cursor_fault := None;
     execute := demo_execute None;
     session_exit := fun _ rows => rows |}.

(** [demo_config] without the key [table] of its warehouse section. *)
Definition demo_config_without_table : Config :=
  <[ "snowflake" := {[ "account" := "acme"; "warehouse" := "WH";
                       "database" := "DB"; "schema" := "PUBLIC";
                       "role" := "LOADER"; "stage_name" := "MY_STAGE" ]} ]>
  demo_config.

(** [demo_config] without its section [source]. *)
Definition demo_config_without_source : Config :=
  delete "source" demo_config.

(** A warehouse that loads CSV rows: one destination table and the rows
    of the staged file.  A row is well formed when it has three columns.
    [PUT] stages a file of three lines, the second with a column missing.
    [COPY INTO] with the option ON_ERROR = 'CONTINUE' loads the well-formed
    rows and skips the others; without it the first malformed row aborts
    the statement. *)
Record CsvWarehouse := mkCsvWarehouse {
  csv_table : list string;
  csv_staged : list string
}.

Fixpoint count_commas (row : string) : nat :=
  match row with
  | EmptyString => 0%nat
  | String c rest =>
      ((if bool_decide (c = ","%char) then 1 else 0) + count_commas rest)%nat
  end.

Definition csv_well_formed (row : string) : bool :=
  Nat.eqb (count_commas row) 2.

Fixpoint ends_with (suffix s : string) : bool :=
  if String.eqb s suffix then true
  else match s with
       | EmptyString => false
       | String _ rest => ends_with suffix rest
       end.

Definition demo_csv_file : list string := ["1,2,3"; "4,5"; "7,8,9"].

Definition demo_csv_execute (stmt : string) (wh : CsvWarehouse)
    : CsvWarehouse * option Exception :=
  if String.prefix "TRUNCATE TABLE " stmt then
    (mkCsvWarehouse [] (csv_staged wh), None)
  else if String.prefix "PUT " stmt then
    (mkCsvWarehouse (csv_table wh) demo_csv_file, None)
  else if String.prefix "COPY INTO " stmt then
    if ends_with "ON_ERROR = 'CONTINUE';" stmt then
      (mkCsvWarehouse
         (csv_table wh ++ List.filter csv_well_formed (csv_staged wh))
         (csv_staged wh), None)
    else if forallb csv_well_formed (csv_staged wh) then
      (mkCsvWarehouse (csv_table wh ++ csv_staged wh) (csv_staged wh), None)
    else
      (wh, Some (SnowflakeError
                   "Number of columns in file (2) does not match that of the corresponding table (3)"))
  else (wh, None).

Definition demo_csv : Platform :=
  {| Warehouse := CsvWarehouse;
     toml_loads := fun _ => inr demo_config;
     requests_get := fun _ => inr (response_with 200 "OK");
     open_fault := fun _ => None;
     write_fault := fun _ _ => None;
     connect_fault := fun _ => None;
     cursor_fault := None;
     execute := demo_csv_execute;
     session_exit := fun _ wh => wh |}.

(** A world before the invocation: the configuration file and an older
    download are on disk, no credentials in the environment, one row in the
    destination table. *)
Definition demo_world {P : Platform} (wh : Warehouse) : World :=
  mkWorld {[ "config.toml" := []; "/tmp/data.csv" := demo_old_file ]}
          ∅ [] [] Absent Absent [] [] wh.

Definition demo_rows : list string := ["9,9,9"].

(** ** The sequencer as a run over its list of statements *)

Section Sequencer.
Context `{P : Platform}.

Definition sequencer_statements
    (stage_name schema table file_path file_name : string) : list string :=
  [ stmt_file_format;
    stmt_stage stage_name;
    stmt_put file_path stage_name;
    stmt_list stage_name;
    stmt_truncate schema table;
    stmt_copy schema table stage_name file_name ].

(** The five statements the overview of the specification counts. *)
Definition five_statements
    (stage_name schema table file_path file_name : string) : list string :=
  [ stmt_file_format;
    stmt_stage stage_name;
    stmt_put file_path stage_name;
    stmt_truncate schema table;
    stmt_copy schema table stage_name file_name ].

Fixpoint execute_all (cursor : unit) (stmts : list string) : Py unit :=
  match stmts with
  | [] => ret tt
  | stmt :: rest => cursor_execute cursor stmt ;;; execute_all cursor rest
  end.

Lemma cursor_execute_sql cursor stmt w :
  w_sql (snd (cursor_execute cursor stmt w)) = (w_sql w ++ [stmt])%list.
Proof.
  unfold cursor_execute.
  destruct (execute stmt (w_warehouse w)) as [wh [e|]]; reflexivity.
Qed.

Lemma execute_all_cons cursor stmt rest w :
  execute_all cursor (stmt :: rest) w =
  match cursor_execute cursor stmt w with
  | (inl e, w1) => (inl e, w1)
  | (inr _, w1) => execute_all cursor rest w1
  end.
Proof. reflexivity. Qed.

Lemma execute_all_app cursor l1 l2 w :
  execute_all cursor (l1 ++ l2) w =
  match execute_all cursor l1 w with
  | (inl e, w1) => (inl e, w1)
  | (inr _, w1) => execute_all cursor l2 w1
  end.
Proof.
  revert w. induction l1 as [|stmt l1 IH]; intros w.
  - reflexivity.
  - simpl app. rewrite !execute_all_cons.
    destruct (cursor_execute cursor stmt w) as [[e|u] w1]; [reflexivity|].
    apply IH.
Qed.

Lemma execute_all_singleton cursor stmt w :
  execute_all cursor [stmt] w = cursor_execute cursor stmt w.
Proof.
  rewrite execute_all_cons.
  destruct (cursor_execute cursor stmt w) as [[e|[]] w1]; reflexivity.
Qed.

(** The statements sent are always a prefix of the list, in its order. *)
Lemma execute_all_sql_prefix cursor stmts w :
  exists n, w_sql (snd (execute_all cursor stmts w)) = (w_sql w ++ take n stmts)%list.
Proof.
  revert w. induction stmts as [|stmt rest IH]; intros w.
  - exists 0%nat. simpl. by rewrite app_nil_r.
  - rewrite execute_all_cons.
    pose proof (cursor_execute_sql cursor stmt w) as Hs.
    destruct (cursor_execute cursor stmt w) as [[e|u] w1]; simpl in Hs.
    + exists 1%nat. simpl. by rewrite Hs, take_0.
    + destruct (IH w1) as [n Hn]. exists (S n).
      rewrite Hn, Hs. simpl. by rewrite <- app_assoc.
Qed.

(** A run that returns has sent the whole list. *)
Lemma execute_all_sql_complete cursor stmts w u :
  fst (execute_all cursor stmts w) = inr u ->
  w_sql (snd (execute_all cursor stmts w)) = (w_sql w ++ stmts)%list.
Proof.
  revert w. induction stmts as [|stmt rest IH]; intros w.
  - intros _. simpl. by rewrite app_nil_r.
  - rewrite execute_all_cons.
    pose proof (cursor_execute_sql cursor stmt w) as Hs.
    destruct (cursor_execute cursor stmt w) as [[e|u'] w1]; simpl in Hs.
    + discriminate.
    + intros H. rewrite (IH w1 H), Hs. by rewrite <- app_assoc.
Qed.

Lemma prepare_snowflake_stage_execute_all
    cursor stage_name schema table file_path file_name w :
  prepare_snowflake_stage cursor stage_name schema table file_path file_name w =
  execute_all cursor
    (sequencer_statements stage_name schema table file_path file_name) w.
Proof.
  unfold prepare_snowflake_stage, sequencer_statements.
  repeat (rewrite execute_all_cons; unfold bind at 1;
          match goal with
          | |- context [cursor_execute cursor ?s ?w0] =>
              destruct (cursor_execute cursor s w0) as [[?|[]] ?]
          end; try reflexivity).
  symmetry. apply execute_all_singleton.
Qed.

End Sequencer.

(** ** Strings *)

Lemma append_assoc (s1 s2 s3 : string) :
  (s1 +:+ s2) +:+ s3 = s1 +:+ (s2 +:+ s3).
Proof.
  induction s1 as [|c s1 IH]; [reflexivity|].
  change (String c ((s1 +:+ s2) +:+ s3) = String c (s1 +:+ (s2 +:+ s3))).
  by rewrite IH.
Qed.

Lemma append_nil_r (s : string) : s +:+ EmptyString = s.
Proof.
  induction s as [|c s IH]; [reflexivity|].
  change (String c (s +:+ EmptyString) = String c s). by rewrite IH.
Qed.

(** ** The stage-and-load sequencer *)

Section SequencerFacts.
Context `{P : Platform}.

(** C1 (amended): [prepare_snowflake_stage] sends six statements, in the
    order file format, stage, PUT, LIST, TRUNCATE, COPY.  Whatever fails,
    what has been sent is a prefix of that list, and a run that returns has
    sent all six. *)
Theorem prepare_snowflake_stage_six_statements
    cursor stage_name schema table file_path file_name w :
  let stmts := sequencer_statements stage_name schema table file_path file_name in
  let run := prepare_snowflake_stage cursor stage_name schema table
               file_path file_name w in
  length stmts = 6%nat /\
  stmts !! 3%nat = Some (stmt_list stage_name) /\
  (exists n, w_sql (snd run) = (w_sql w ++ take n stmts)%list) /\
  (forall u, fst run = inr u -> w_sql (snd run) = (w_sql w ++ stmts)%list).
Proof.
  intros stmts run. subst run.
  rewrite prepare_snowflake_stage_execute_all. fold stmts.
  split; [reflexivity|]. split; [reflexivity|]. split.
  - apply execute_all_sql_prefix.
  - intros u. apply execute_all_sql_complete.
Qed.

(** C2: TRUNCATE is the fifth statement and COPY the sixth.  When the COPY
    raises after the TRUNCATE went through, the sequencer raises that error
    at once: the warehouse is left as the failed COPY left the truncated
    table, and the COPY is the last statement sent, with nothing after it
    that would restore the table. *)
Theorem truncate_before_copy_without_rollback
    cursor stage_name schema table file_path file_name w w4 wh5 wh6 e :
  let stmts := sequencer_statements stage_name schema table file_path file_name in
  execute_all cursor (take 4 stmts) w = (inr tt, w4) ->
  execute (stmt_truncate schema table) (w_warehouse w4) = (wh5, None) ->
  execute (stmt_copy schema table stage_name file_name) wh5 = (wh6, Some e) ->
  stmts !! 4%nat = Some (stmt_truncate schema table) /\
  stmts !! 5%nat = Some (stmt_copy schema table stage_name file_name) /\
  exists w6,
    prepare_snowflake_stage cursor stage_name schema table
      file_path file_name w = (inl e, w6) /\
    w_warehouse w6 = wh6 /\
    w_sql w6 = (w_sql w ++ stmts)%list.
Proof.
  intros stmts H4 Ht Hc.
  split; [reflexivity|]. split; [reflexivity|].
  pose proof (execute_all_sql_complete cursor (take 4 stmts) w tt) as Hlog.
  rewrite H4 in Hlog. simpl fst in Hlog. simpl snd in Hlog.
  specialize (Hlog eq_refl).
  rewrite prepare_snowflake_stage_execute_all. fold stmts.
  change (execute_all cursor stmts w) with
    (execute_all cursor (take 4 stmts ++
       [stmt_truncate schema table;
        stmt_copy schema table stage_name file_name]) w).
  rewrite execute_all_app, H4, execute_all_cons.
  unfold cursor_execute at 1. rewrite Ht.
  rewrite execute_all_singleton.
  unfold cursor_execute. simpl w_warehouse. rewrite Hc.
  eexists. split; [reflexivity|]. simpl.
  rewrite Hlog. rewrite <- !app_assoc. auto.
Qed.

Lemma stmt_copy_shape schema table stage_name file_name :
  "COPY INTO " +:+ (schema +:+ "." +:+ table) +:+ " FROM " +:+
  ("@" +:+ stage_name +:+ "/" +:+ file_name) +:+
  " FILE_FORMAT = COMMA_CSV, ON_ERROR = 'CONTINUE';" =
  stmt_copy schema table stage_name file_name.
Proof. rewrite !append_assoc. reflexivity. Qed.

(** C6: every statement the sequencer sends is, in order, one of: the
    definition of the file format COMMA_CSV, the creation of the stage with
    FILE_FORMAT = COMMA_CSV, the PUT, the LIST, the TRUNCATE, and last the
    COPY INTO the destination table with that same FILE_FORMAT = COMMA_CSV
    and the policy ON_ERROR = 'CONTINUE'; a run that returns has sent them
    all, so its COPY follows the stage and format definitions it names.
    On a warehouse where a COPY carrying that policy loads the well-formed
    rows of the staged file and skips the others, the COPY of the sequencer
    does not abort the load: the run returns and the destination table has
    gained exactly the well-formed rows. *)
Theorem copy_uses_stage_format_and_continues_on_error
    cursor stage_name schema table file_path file_name w :
  let format := "COMMA_CSV" in
  let copy :=
    "COPY INTO " +:+ schema +:+ "." +:+ table +:+ " FROM @" +:+ stage_name +:+
    "/" +:+ file_name +:+ " FILE_FORMAT = " +:+ format +:+
    ", ON_ERROR = 'CONTINUE';" in
  let sequence :=
    [ "CREATE OR REPLACE FILE FORMAT " +:+ format +:+
        " TYPE ='CSV' FIELD_DELIMITER = ',';";
      "CREATE OR REPLACE STAGE " +:+ stage_name +:+ " FILE_FORMAT = " +:+ format;
      "PUT 'file://" +:+ file_path +:+ "' @" +:+ stage_name;
      "LIST @" +:+ stage_name;
      "TRUNCATE TABLE " +:+ schema +:+ "." +:+ table +:+ ";";
      copy ] in
  let run := prepare_snowflake_stage cursor stage_name schema table
               file_path file_name w in
  (exists n, w_sql (snd run) = (w_sql w ++ take n sequence)%list) /\
  (forall u, fst run = inr u ->
     w_sql (snd run) = (w_sql w ++ sequence)%list /\
     last (w_sql (snd run)) = Some copy) /\
  (forall (Row : Type) (table_rows staged_rows : string -> Warehouse -> list Row)
          (well_formed : Row -> bool),
     (forall target location wh,
        exists wh',
          execute ("COPY INTO " +:+ target +:+ " FROM " +:+ location +:+
                   " FILE_FORMAT = COMMA_CSV, ON_ERROR = 'CONTINUE';") wh
            = (wh', None) /\
          table_rows target wh' =
            (table_rows target wh ++
             List.filter well_formed (staged_rows location wh))%list) ->
     forall w5,
       execute_all cursor (take 5 sequence) w = (inr tt, w5) ->
       fst run = inr tt /\
       table_rows (schema +:+ "." +:+ table) (w_warehouse (snd run)) =
         (table_rows (schema +:+ "." +:+ table) (w_warehouse w5) ++
          List.filter well_formed
            (staged_rows ("@" +:+ stage_name +:+ "/" +:+ file_name)
               (w_warehouse w5)))%list).
Proof.
  intros format copy sequence run. subst run.
  change sequence
    with (sequencer_statements stage_name schema table file_path file_name).
  change copy with (stmt_copy schema table stage_name file_name).
  clear format copy sequence.
  set (stmts := sequencer_statements stage_name schema table file_path file_name).
  rewrite prepare_snowflake_stage_execute_all. fold stmts.
  split; [apply execute_all_sql_prefix|]. split.
  - intros u Hu. rewrite (execute_all_sql_complete _ _ _ _ Hu).
    split; [done|].
    change stmts
      with (take 5 stmts ++ [stmt_copy schema table stage_name file_name])%list.
    by rewrite app_assoc, last_snoc.
  - intros Row table_rows staged_rows well_formed Hcopy w5 H5.
    destruct (Hcopy (schema +:+ "." +:+ table)
                ("@" +:+ stage_name +:+ "/" +:+ file_name) (w_warehouse w5))
      as (wh' & Hexec & Hrows).
    rewrite stmt_copy_shape in Hexec.
    change (execute_all cursor stmts w) with
      (execute_all cursor
         (take 5 stmts ++ [stmt_copy schema table stage_name file_name]) w).
    rewrite execute_all_app, H5, execute_all_singleton.
    unfold cursor_execute. rewrite Hexec. simpl. done.
Qed.

End SequencerFacts.

(** ** The file fetcher *)

Section FetcherFacts.
Context `{P : Platform}.

(** An error status stops [download_file] at [raise_for_status]: nothing
    after it runs and the world is the one it started from. *)
Lemma download_file_http_error url destination_path w r :
  requests_get url = inr r ->
  400 <= status_code r < 600 ->
  download_file url destination_path w =
  (inl (HTTPError (status_code r) (reason r) (resp_url r)), w).
Proof.
  intros Hget [Hlo Hhi].
  unfold download_file, bind, lift, raise_for_status. rewrite Hget.
  apply Z.leb_le in Hlo. apply Z.ltb_lt in Hhi. rewrite Hlo, Hhi.
  reflexivity.
Qed.

(** What a returning [download_file] went through. *)
Lemma download_file_returns url destination_path w u w' :
  download_file url destination_path w = (inr u, w') ->
  exists r,
    requests_get url = inr r /\
    (400 <=? status_code r) && (status_code r <? 600) = false /\
    open_fault destination_path = None /\
    write_fault destination_path (content r) = None /\
    w_fs w' = <[destination_path := content r]>
                (<[destination_path := []]> (w_fs w)).
Proof.
  unfold download_file, bind, lift, raise_for_status, with_, open_wb,
    file_write, file_close.
  destruct (requests_get url) as [e|r]; [discriminate|].
  destruct ((400 <=? status_code r) && (status_code r <? 600)) eqn:Hst;
    [discriminate|].
  unfold ret. destruct (open_fault destination_path) as [e|] eqn:Hopen;
    [discriminate|].
  destruct (write_fault destination_path (content r)) as [[n e]|] eqn:Hwrite;
    [discriminate|].
  intros [= <- <-]. exists r. repeat split; try done.
  simpl. by rewrite lookup_insert_eq.
Qed.

(** C3: when [download_file] returns, the file at the destination path holds
    exactly the body of the HTTP response, and no other path has changed. *)
Theorem download_file_stores_response_body url destination_path w u w' :
  download_file url destination_path w = (inr u, w') ->
  exists r,
    requests_get url = inr r /\
    w_fs w' !! destination_path = Some (content r) /\
    (forall p, p ≠ destination_path -> w_fs w' !! p = w_fs w !! p).
Proof.
  intros Hrun.
  destruct (download_file_returns _ _ _ _ _ Hrun) as (r & Hget & _ & _ & _ & Hfs).
  exists r. rewrite Hfs. split; [done|]. split.
  - by rewrite lookup_insert_eq.
  - intros p Hp. by rewrite !lookup_insert_ne.
Qed.

(** C4 (amended): for every response with a client or server error status
    (400 to 599), [download_file] raises the [HTTPError] and writes nothing:
    the filesystem is untouched and no file has been opened. *)
Theorem download_file_raises_on_error_status url destination_path w r :
  requests_get url = inr r ->
  400 <= status_code r < 600 ->
  let run := download_file url destination_path w in
  fst run = inl (HTTPError (status_code r) (reason r) (resp_url r)) /\
  w_fs (snd run) = w_fs w /\
  w_open_files (snd run) = w_open_files w.
Proof.
  intros Hget Hst run. subst run.
  by rewrite (download_file_http_error _ _ _ _ Hget Hst).
Qed.

(** C8 (amended): for every response with a client or server error status
    (400 to 599), a file that was at the destination path before the call is
    there afterwards with the same bytes: the status check raises before the
    file is opened. *)
Theorem download_file_keeps_file_on_error_status
    url destination_path w r old :
  requests_get url = inr r ->
  400 <= status_code r < 600 ->
  w_fs w !! destination_path = Some old ->
  w_fs (snd (download_file url destination_path w)) !! destination_path
    = Some old /\
  w_open_files (snd (download_file url destination_path w)) = w_open_files w.
Proof.
  intros Hget Hst Hold.
  by rewrite (download_file_http_error _ _ _ _ Hget Hst).
Qed.

End FetcherFacts.

(** ** Configuration lookups and the local path *)

Section ConfigFacts.
Context `{P : Platform}.

Lemma config_get_world config section key w :
  snd (config_get config section key w) = w.
Proof.
  unfold config_get, bind, getitem.
  destruct (config !! section) as [sec|]; [|done].
  simpl. by destruct (sec !! key).
Qed.

Lemma config_get_found config section key sec v w :
  config !! section = Some sec -> sec !! key = Some v ->
  config_get config section key w = (inr v, w).
Proof.
  intros Hs Hk. unfold config_get, bind, getitem. rewrite Hs. simpl.
  by rewrite Hk.
Qed.

Lemma os_path_join_absolute a b :
  startswith_sep b = true -> os_path_join a b = b.
Proof. intros H. unfold os_path_join. by rewrite H. Qed.

(** C10: the local path is [os.path.join] of the configured destination
    folder and file name; when the file name is absolute (it starts with
    the separator) the folder is dropped and the path is the file name. *)
Theorem local_path_is_file_name_when_absolute
    config local destination_folder file_name w :
  config !! "local" = Some local ->
  local !! "destination_folder" = Some destination_folder ->
  local !! "file_name" = Some file_name ->
  local_file_path_of config w =
    (inr (os_path_join destination_folder file_name), w) /\
  (startswith_sep file_name = true ->
   local_file_path_of config w = (inr file_name, w)).
Proof.
  intros Hl Hf Hn.
  assert (local_file_path_of config w =
          (inr (os_path_join destination_folder file_name), w)) as Hpath.
  { unfold local_file_path_of, bind.
    rewrite (config_get_found _ _ _ _ _ _ Hl Hf).
    by rewrite (config_get_found _ _ _ _ _ _ Hl Hn). }
  split; [done|].
  intros Habs. by rewrite Hpath, os_path_join_absolute.
Qed.

End ConfigFacts.

(** ** The warehouse session *)

Section SessionFacts.
Context `{P : Platform}.

(** C9: with the warehouse keys of the configuration present and
    SNOWFLAKE_USER or SNOWFLAKE_PASSWORD unset, reading the environment
    does not raise; [establish_snowflake_connection] is the call of
    [sf.connect] whose user and password are what [os.getenv] gave, [None]
    for the unset one, and an error it raises is the one of that call. *)
Theorem establish_connection_passes_unset_credentials
    config sec acc wh db sc ro w :
  config !! "snowflake" = Some sec ->
  sec !! "account" = Some acc ->
  sec !! "warehouse" = Some wh ->
  sec !! "database" = Some db ->
  sec !! "schema" = Some sc ->
  sec !! "role" = Some ro ->
  w_env w !! "SNOWFLAKE_USER" = None \/ w_env w !! "SNOWFLAKE_PASSWORD" = None ->
  let args := mkConnectArgs (w_env w !! "SNOWFLAKE_USER")
                (w_env w !! "SNOWFLAKE_PASSWORD") acc wh db sc ro in
  os_getenv "SNOWFLAKE_USER" w = (inr (user args), w) /\
  os_getenv "SNOWFLAKE_PASSWORD" w = (inr (password args), w) /\
  (user args = None \/ password args = None) /\
  establish_snowflake_connection config w = sf_connect args w /\
  last (w_connect_calls (snd (establish_snowflake_connection config w)))
    = Some args /\
  (forall e w', establish_snowflake_connection config w = (inl e, w') ->
                connect_fault args = Some e).
Proof.
  intros Hsec Ha Hw Hd Hs Hr Hunset args.
  assert (establish_snowflake_connection config w = sf_connect args w) as Heq.
  { unfold establish_snowflake_connection, bind, os_getenv.
    rewrite (config_get_found _ _ _ _ _ _ Hsec Ha).
    rewrite (config_get_found _ _ _ _ _ _ Hsec Hw).
    rewrite (config_get_found _ _ _ _ _ _ Hsec Hd).
    rewrite (config_get_found _ _ _ _ _ _ Hsec Hs).
    by rewrite (config_get_found _ _ _ _ _ _ Hsec Hr). }
  split; [done|]. split; [done|]. split; [done|]. split; [done|].
  rewrite Heq. unfold sf_connect.
  destruct (connect_fault args) as [e0|]; simpl.
  - split; [by rewrite last_snoc|]. by intros e w' [= -> _].
  - split; [by rewrite last_snoc|]. intros e w'. discriminate.
Qed.

Lemma establish_snowflake_connection_handles config w :
  let run := establish_snowflake_connection config w in
  w_cursor (snd run) = w_cursor w /\
  match fst run with
  | inl _ => w_conn (snd run) = w_conn w
  | inr _ => w_conn (snd run) = Open
  end.
Proof.
  unfold establish_snowflake_connection, bind, os_getenv.
  repeat match goal with
  | |- context [config_get ?c ?s ?k ?w0] =>
      let H := fresh in
      pose proof (config_get_world c s k w0) as H;
      destruct (config_get c s k w0) as [[?|?] ?]; simpl in H; subst;
      [simpl; auto|]
  end.
  unfold sf_connect.
  match goal with |- context [connect_fault ?a] =>
    destruct (connect_fault a) end; simpl; auto.
Qed.

(** C7: from a world with no open connection or cursor, the warehouse block
    ends, on its normal exit and on every raised error, with neither of them
    open; a connection that was established is closed, and so is a cursor
    that was created. *)
Theorem warehouse_block_releases_connection_and_cursor
    config local_file_path w :
  w_conn w ≠ Open ->
  w_cursor w ≠ Open ->
  let w' := snd (warehouse_block config local_file_path w) in
  w_conn w' ≠ Open /\
  w_cursor w' ≠ Open /\
  (forall u w1, establish_snowflake_connection config w = (inr u, w1) ->
     w_conn w' = Closed /\ (cursor_fault = None -> w_cursor w' = Closed)).
Proof.
  intros Hconn Hcur w'. subst w'. unfold warehouse_block.
  match goal with
  | |- context [with_ _ conn_exit ?f] => set (inner := f)
  end.
  unfold with_.
  destruct (establish_snowflake_connection_handles config w) as [Hk Hc].
  destruct (establish_snowflake_connection config w) as [[e|u] w1];
    simpl in Hk, Hc.
  { simpl. rewrite Hk, Hc. split; [done|]. split; [done|]. discriminate. }
  subst inner. unfold with_, conn_cursor, cursor_exit, conn_exit.
  destruct cursor_fault as [e|].
  { simpl. rewrite Hk. split; [done|]. split; [done|]. intros _ _ _.
    split; [done|]. discriminate. }
  match goal with
  | |- context [bind ?m ?k ?w0] => destruct (bind m k w0) as [[e|u'] w2]
  end; simpl; (split; [done|]; split; [done|]; intros _ _ _; done).
Qed.

End SessionFacts.

(** ** The entry point *)

Section HandlerFacts.
Context `{P : Platform}.

(** C5: [lambda_handler] always returns a result, never an exception: status
    200 when [upload_file_to_snowflake] completes, and status 500 with a body
    that ends with [str(e)] when it raises [e]. *)
Theorem lambda_handler_returns_200_or_500
    {Event Context : Type} (event : Event) (context : Context) w :
  exists res w',
    lambda_handler event context w = (inr res, w') /\
    match fst (upload_file_to_snowflake w) with
    | inr _ =>
        res = mkLambdaResult 200 "File uploaded to Snowflake successfully."
    | inl e =>
        statusCode res = 500 /\
        body res = "Error uploading file to Snowflake: " +:+ str e /\
        exists before after, body res = before +:+ str e +:+ after
    end.
Proof.
  unfold lambda_handler, try_except, bind at 1.
  destruct (upload_file_to_snowflake w) as [[e|u] w1]; simpl.
  - unfold bind, print, ret. simpl. eexists _, _. split; [reflexivity|].
    simpl. split; [done|]. split; [done|].
    exists "Error uploading file to Snowflake: ", EmptyString.
    by rewrite append_nil_r.
  - unfold ret. eexists _, _. split; reflexivity.
Qed.

End HandlerFacts.

(** ** Runs on the concrete platform *)

(** A missing configuration file is reported in the body of the 500 result. *)
Example lambda_handler_missing_config :
  fst (lambda_handler (P := demo_ok) tt tt
         (mkWorld (P := demo_ok) ∅ ∅ [] [] Absent Absent [] [] demo_rows)) =
  inr (mkLambdaResult 500
         "Error uploading file to Snowflake: [Errno 2] No such file or directory: 'config.toml'").
Proof. vm_compute. reflexivity. Qed.

(** A full run: the six statements, the table reloaded, both handles closed. *)
Example lambda_handler_full_run :
  let run := lambda_handler (P := demo_ok) tt tt (demo_world (P := demo_ok) demo_rows) in
  fst run = inr (mkLambdaResult 200 "File uploaded to Snowflake successfully.") /\
  w_warehouse (snd run) = ["1,2,3"; "4,5,6"] /\
  w_conn (snd run) = Closed /\ w_cursor (snd run) = Closed /\
  w_fs (snd run) !! "/tmp/data.csv" = Some demo_body.
Proof. vm_compute. auto. Qed.

(** A run whose COPY fails: status 500, the table left empty, both handles
    closed. *)
Example lambda_handler_copy_fails :
  let run := lambda_handler (P := demo_copy_fails) tt tt
               (demo_world (P := demo_copy_fails) demo_rows) in
  fst run = inr (mkLambdaResult 500
    "Error uploading file to Snowflake: Numeric value 'x' is not recognized") /\
  w_warehouse (snd run) = [] /\
  w_conn (snd run) = Closed /\ w_cursor (snd run) = Closed.
Proof. vm_compute. auto. Qed.

(** C1, counterexample: on a run where every statement succeeds the
    sequencer has sent six statements, not five; the fourth is the LIST of
    the stage, which the five-statement sequence leaves out. *)
Lemma prepare_snowflake_stage_not_five_statements :
  let run := prepare_snowflake_stage (P := demo_ok) tt "MY_STAGE" "PUBLIC"
               "SALES" "/tmp/data.csv" "data.csv" (demo_world (P := demo_ok) demo_rows) in
  fst run = inr tt /\
  length (w_sql (snd run)) = 6%nat /\
  length (w_sql (snd run)) ≠ 5%nat /\
  w_sql (snd run) !! 3%nat = Some "LIST @MY_STAGE" /\
  w_sql (snd run) ≠
    five_statements "MY_STAGE" "PUBLIC" "SALES" "/tmp/data.csv" "data.csv".
Proof.
  vm_compute. split; [done|]. split; [done|]. split; [done|]. split; [done|].
  discriminate.
Qed.

(** C1, witness: the statements of a run that returns. *)
Lemma prepare_snowflake_stage_six_statements_witness :
  w_sql (snd (prepare_snowflake_stage (P := demo_ok) tt "MY_STAGE" "PUBLIC"
                "SALES" "/tmp/data.csv" "data.csv" (demo_world (P := demo_ok) demo_rows))) =
  sequencer_statements "MY_STAGE" "PUBLIC" "SALES" "/tmp/data.csv" "data.csv".
Proof.
  apply (proj2 (proj2 (proj2
    (prepare_snowflake_stage_six_statements (P := demo_ok) tt "MY_STAGE"
       "PUBLIC" "SALES" "/tmp/data.csv" "data.csv" (demo_world (P := demo_ok) demo_rows))))
    tt).
  vm_compute. reflexivity.
Defined.

(** C2, witness: the COPY fails on a table that held one row; the table is
    left empty. *)
Lemma truncate_before_copy_without_rollback_witness :
  exists w6,
    prepare_snowflake_stage (P := demo_copy_fails) tt "MY_STAGE" "PUBLIC"
      "SALES" "/tmp/data.csv" "data.csv" (demo_world (P := demo_copy_fails) demo_rows) =
    (inl (SnowflakeError "Numeric value 'x' is not recognized"), w6) /\
    w_warehouse (demo_world (P := demo_copy_fails) demo_rows) = ["9,9,9"] /\
    w_warehouse w6 = [].
Proof.
  destruct (truncate_before_copy_without_rollback (P := demo_copy_fails) tt
    "MY_STAGE" "PUBLIC" "SALES" "/tmp/data.csv" "data.csv"
    (demo_world (P := demo_copy_fails) demo_rows)
    (snd (execute_all (P := demo_copy_fails) tt
       (take 4 (sequencer_statements "MY_STAGE" "PUBLIC" "SALES"
                  "/tmp/data.csv" "data.csv"))
       (demo_world (P := demo_copy_fails) demo_rows)))
    [] [] (SnowflakeError "Numeric value 'x' is not recognized"))
    as (_ & _ & w6 & Hrun & Hwh & _).
  - vm_compute. reflexivity.
  - vm_compute. reflexivity.
  - vm_compute. reflexivity.
  - exists w6. split; [exact Hrun|]. split; [reflexivity|exact Hwh].
Defined.

Lemma ends_with_app suffix before :
  ends_with suffix (before +:+ suffix) = true.
Proof.
  induction before as [|c before IH].
  - change (EmptyString +:+ suffix) with suffix.
    destruct suffix; cbn [ends_with]; by rewrite String.eqb_refl.
  - change (String c before +:+ suffix) with (String c (before +:+ suffix)).
    cbn [ends_with]. rewrite IH. by destruct (String.eqb _ _).
Qed.

Lemma prefix_append (p rest : string) : String.prefix p (p +:+ rest) = true.
Proof.
  induction p as [|c p IH].
  - change (EmptyString +:+ rest) with rest. by destruct rest.
  - change (String c p +:+ rest) with (String c (p +:+ rest)).
    cbn [String.prefix]. by destruct (ascii_dec c c).
Qed.

(** The concrete CSV warehouse gives ON_ERROR = 'CONTINUE' its meaning. *)
Lemma demo_csv_copy_continue target location wh :
  demo_csv_execute
    ("COPY INTO " +:+ target +:+ " FROM " +:+ location +:+
     " FILE_FORMAT = COMMA_CSV, ON_ERROR = 'CONTINUE';") wh =
  (mkCsvWarehouse
     (csv_table wh ++ List.filter csv_well_formed (csv_staged wh))
     (csv_staged wh), None).
Proof.
  unfold demo_csv_execute.
  set (stmt := "COPY INTO " +:+ target +:+ " FROM " +:+ location +:+
               " FILE_FORMAT = COMMA_CSV, ON_ERROR = 'CONTINUE';").
  assert (String.prefix "TRUNCATE TABLE " stmt = false) as -> by reflexivity.
  assert (String.prefix "PUT " stmt = false) as -> by reflexivity.
  assert (String.prefix "COPY INTO " stmt = true) as ->
    by apply prefix_append.
  assert (stmt =
          ("COPY INTO " +:+ target +:+ " FROM " +:+ location +:+
           " FILE_FORMAT = COMMA_CSV, ") +:+ "ON_ERROR = 'CONTINUE';") as ->.
  { subst stmt. rewrite !append_assoc. reflexivity. }
  by rewrite ends_with_app.
Qed.

(** Without the policy the same warehouse aborts on the malformed row. *)
Example demo_csv_copy_without_policy_aborts :
  snd (demo_csv_execute
         "COPY INTO PUBLIC.SALES FROM @MY_STAGE/data.csv FILE_FORMAT = COMMA_CSV;"
         (mkCsvWarehouse [] demo_csv_file)) =
  Some (SnowflakeError
          "Number of columns in file (2) does not match that of the corresponding table (3)").
Proof. vm_compute. reflexivity. Qed.

(** C6, witness: a staged file of three lines, the second malformed; the
    run returns, has sent the six statements, and the table that held one
    row holds the two well-formed rows. *)
Lemma copy_uses_stage_format_and_continues_on_error_witness :
  let w := demo_world (P := demo_csv) (mkCsvWarehouse ["9,9,9"] []) in
  let run := prepare_snowflake_stage (P := demo_csv) tt "MY_STAGE" "PUBLIC"
               "SALES" "/tmp/data.csv" "data.csv" w in
  fst run = inr tt /\
  last (w_sql (snd run)) =
    Some "COPY INTO PUBLIC.SALES FROM @MY_STAGE/data.csv FILE_FORMAT = COMMA_CSV, ON_ERROR = 'CONTINUE';" /\
  csv_table (w_warehouse (snd run)) = ["1,2,3"; "7,8,9"].
Proof.
  intros w run.
  destruct (copy_uses_stage_format_and_continues_on_error (P := demo_csv) tt
    "MY_STAGE" "PUBLIC" "SALES" "/tmp/data.csv" "data.csv" w)
    as (_ & Hreturn & Hrows).
  destruct (Hrows string (fun _ wh => csv_table wh) (fun _ wh => csv_staged wh)
              csv_well_formed)
    with (w5 := snd (execute_all (P := demo_csv) tt
                (take 5 (sequencer_statements "MY_STAGE" "PUBLIC" "SALES"
                           "/tmp/data.csv" "data.csv")) w))
    as [Hfst Htable].
  - intros target location wh. eexists. split.
    + apply demo_csv_copy_continue.
    + reflexivity.
  - vm_compute. reflexivity.
  - split; [exact Hfst|]. split.
    + exact (proj2 (Hreturn tt Hfst)).
    + exact Htable.
Defined.

(** C3, witness: a 200 answer is stored over the older download. *)
Lemma download_file_stores_response_body_witness :
  w_fs (snd (download_file (P := demo_ok) "https://example.com/data.csv"
               "/tmp/data.csv" (demo_world (P := demo_ok) demo_rows)))
    !! "/tmp/data.csv" = Some demo_body.
Proof.
  destruct (download_file_stores_response_body (P := demo_ok)
    "https://example.com/data.csv" "/tmp/data.csv"
    (demo_world (P := demo_ok) demo_rows) tt
    (snd (download_file (P := demo_ok) "https://example.com/data.csv"
            "/tmp/data.csv" (demo_world (P := demo_ok) demo_rows))))
    as (r & Hget & Hfs & _).
  - vm_compute. reflexivity.
  - injection Hget as <-. exact Hfs.
Defined.

(** C4, counterexample: the answer 300 Multiple Choices is not a 2xx
    response, yet [download_file] returns normally and has written the body
    to a path that did not exist. *)
Lemma download_file_accepts_status_300 :
  let w := demo_world (P := demo_multiple_choices) demo_rows in
  let run := download_file (P := demo_multiple_choices)
               "https://example.com/data.csv" "/tmp/new.csv" w in
  (exists r, requests_get (Platform := demo_multiple_choices)
               "https://example.com/data.csv" = inr r /\
             status_code r = 300 /\ ~ (200 <= status_code r < 300)) /\
  fst run = inr tt /\
  w_fs w !! "/tmp/new.csv" = None /\
  w_fs (snd run) !! "/tmp/new.csv" = Some demo_body.
Proof.
  split.
  - eexists. split; [reflexivity|]. simpl. split; [reflexivity|lia].
  - vm_compute. auto.
Qed.

(** C4, witness: a 404 answer. *)
Lemma download_file_raises_on_error_status_witness :
  let run := download_file (P := demo_not_found)
               "https://example.com/data.csv" "/tmp/data.csv"
               (demo_world (P := demo_not_found) demo_rows) in
  fst run = inl (HTTPError 404 "Not Found" "https://example.com/data.csv") /\
  w_fs (snd run) = w_fs (demo_world (P := demo_not_found) demo_rows) /\
  w_open_files (snd run) = [].
Proof.
  apply (download_file_raises_on_error_status (P := demo_not_found)
    "https://example.com/data.csv" "/tmp/data.csv"
    (demo_world (P := demo_not_found) demo_rows)
    (response_with 404 "Not Found")).
  - reflexivity.
  - simpl. lia.
Defined.

(** C8, counterexample: the answer 300 Multiple Choices is not a 2xx
    response, and the file that was at the destination path is overwritten
    with its body. *)
Lemma download_file_overwrites_on_status_300 :
  let w := demo_world (P := demo_multiple_choices) demo_rows in
  let run := download_file (P := demo_multiple_choices)
               "https://example.com/data.csv" "/tmp/data.csv" w in
  (exists r, requests_get (Platform := demo_multiple_choices)
               "https://example.com/data.csv" = inr r /\
             ~ (200 <= status_code r < 300)) /\
  w_fs w !! "/tmp/data.csv" = Some demo_old_file /\
  w_fs (snd run) !! "/tmp/data.csv" = Some demo_body /\
  w_fs (snd run) !! "/tmp/data.csv" ≠ w_fs w !! "/tmp/data.csv".
Proof.
  split.
  - eexists. split; [reflexivity|]. simpl. lia.
  - vm_compute. split; [done|]. split; [done|]. discriminate.
Qed.

(** C8, witness: a 404 answer leaves the older download in place. *)
Lemma download_file_keeps_file_on_error_status_witness :
  w_fs (snd (download_file (P := demo_not_found)
               "https://example.com/data.csv" "/tmp/data.csv"
               (demo_world (P := demo_not_found) demo_rows)))
    !! "/tmp/data.csv" = Some demo_old_file.
Proof.
  apply (download_file_keeps_file_on_error_status (P := demo_not_found)
    "https://example.com/data.csv" "/tmp/data.csv"
    (demo_world (P := demo_not_found) demo_rows)
    (response_with 404 "Not Found") demo_old_file).
  - reflexivity.
  - simpl. lia.
  - vm_compute. reflexivity.
Defined.

(** C7, witness: the COPY raises inside the block; both handles are closed. *)
Lemma warehouse_block_releases_connection_and_cursor_witness :
  let run := warehouse_block (P := demo_copy_fails) demo_config "/tmp/data.csv"
               (demo_world (P := demo_copy_fails) demo_rows) in
  fst run = inl (SnowflakeError "Numeric value 'x' is not recognized") /\
  w_conn (snd run) = Closed /\ w_cursor (snd run) = Closed.
Proof.
  split; [vm_compute; reflexivity|].
  destruct (warehouse_block_releases_connection_and_cursor
    (P := demo_copy_fails) demo_config "/tmp/data.csv"
    (demo_world (P := demo_copy_fails) demo_rows)) as (_ & _ & Hclosed).
  - discriminate.
  - discriminate.
  - destruct (Hclosed tt
      (snd (establish_snowflake_connection (P := demo_copy_fails) demo_config
              (demo_world (P := demo_copy_fails) demo_rows))))
      as [Hconn Hcursor].
    + vm_compute. reflexivity.
    + split; [exact Hconn|]. apply Hcursor. reflexivity.
Defined.

(** C9, witness: no credentials in the environment; [sf.connect] is called
    with user and password [None]. *)
Lemma establish_connection_passes_unset_credentials_witness :
  last (w_connect_calls (snd (establish_snowflake_connection (P := demo_ok)
          demo_config (demo_world (P := demo_ok) demo_rows)))) =
  Some (mkConnectArgs None None "acme" "WH" "DB" "PUBLIC" "LOADER").
Proof.
  refine (proj1 (proj2 (proj2 (proj2 (proj2
    (establish_connection_passes_unset_credentials (P := demo_ok) demo_config
       {[ "account" := "acme"; "warehouse" := "WH"; "database" := "DB";
          "schema" := "PUBLIC"; "role" := "LOADER";
          "stage_name" := "MY_STAGE"; "table" := "SALES" ]}
       "acme" "WH" "DB" "PUBLIC" "LOADER"
       (demo_world (P := demo_ok) demo_rows) _ _ _ _ _ _ _))))));
    try (vm_compute; reflexivity).
  left. vm_compute. reflexivity.
Defined.

(** C10, witness: an absolute file name replaces the folder. *)
Lemma local_path_is_file_name_when_absolute_witness :
  local_file_path_of (P := demo_ok)
    {[ "local" := {[ "destination_folder" := "/tmp";
                     "file_name" := "/var/data/data.csv" ]} ]}
    (demo_world (P := demo_ok) demo_rows) =
  (inr "/var/data/data.csv", demo_world (P := demo_ok) demo_rows).
Proof.
  refine (proj2 (local_path_is_file_name_when_absolute (P := demo_ok)
    {[ "local" := {[ "destination_folder" := "/tmp";
                     "file_name" := "/var/data/data.csv" ]} ]}
    {[ "destination_folder" := "/tmp"; "file_name" := "/var/data/data.csv" ]}
    "/tmp" "/var/data/data.csv" (demo_world (P := demo_ok) demo_rows)
    _ _ _) _); vm_compute; reflexivity.
Defined.

(** ** More on the file fetcher: faults and what is left untouched *)

Section FetcherFrame.
Context `{P : Platform}.

(** The fields of the world [download_file] has no business with. *)
Lemma download_file_warehouse_side url destination_path w :
  let w' := snd (download_file url destination_path w) in
  w_env w' = w_env w /\ w_stdout w' = w_stdout w /\
  w_conn w' = w_conn w /\ w_cursor w' = w_cursor w /\
  w_connect_calls w' = w_connect_calls w /\ w_sql w' = w_sql w /\
  w_warehouse w' = w_warehouse w.
Proof.
  unfold download_file, bind, lift, raise_for_status, with_, open_wb,
    file_write, file_close.
  destruct (requests_get url) as [e|r]; [simpl; auto 10|].
  destruct ((400 <=? status_code r) && (status_code r <? 600));
    [simpl; auto 10|].
  unfold ret. destruct (open_fault destination_path) as [e|];
    [simpl; auto 10|].
  destruct (write_fault destination_path (content r)) as [[n e]|];
    simpl; auto 10.
Qed.

Lemma filter_other_paths (file : string) (files : list string) :
  file ∉ files -> filter (fun p => p ≠ file) files = files.
Proof.
  induction files as [|q files IH]; intros Hnot; [done|].
  apply not_elem_of_cons in Hnot as [Hq Hrest].
  rewrite filter_cons_True by congruence. by rewrite IH.
Qed.

(** In every outcome [download_file] changes no path but the destination,
    and the destination is not left open. *)
Theorem download_file_touches_only_destination url destination_path w :
  let w' := snd (download_file url destination_path w) in
  (forall p, p ≠ destination_path -> w_fs w' !! p = w_fs w !! p) /\
  (destination_path ∉ w_open_files w -> w_open_files w' = w_open_files w).
Proof.
  unfold download_file, bind, lift, raise_for_status, with_, open_wb,
    file_write, file_close.
  destruct (requests_get url) as [e|r]; [done|].
  destruct ((400 <=? status_code r) && (status_code r <? 600)); [done|].
  unfold ret. destruct (open_fault destination_path) as [e|]; [done|].
  destruct (write_fault destination_path (content r)) as [[n e]|]; simpl;
    (split;
     [ intros p Hp; by rewrite !lookup_insert_ne
     | intros Hnot; rewrite filter_cons_False by tauto;
       by apply filter_other_paths ]).
Qed.

(** With a response in hand, [download_file] returns exactly when the status
    is outside 400..599 and neither the open nor the write faults. *)
Theorem download_file_returns_iff url destination_path w r :
  requests_get url = inr r ->
  (exists u w', download_file url destination_path w = (inr u, w')) <->
  (~ (400 <= status_code r < 600) /\
   open_fault destination_path = None /\
   write_fault destination_path (content r) = None).
Proof.
  intros Hget. split.
  - intros (u & w' & Hrun).
    destruct (download_file_returns _ _ _ _ _ Hrun)
      as (r' & Hget' & Hst & Hopen & Hwrite & _).
    rewrite Hget in Hget'. injection Hget' as <-.
    split; [|done]. intros [Hlo Hhi].
    apply Z.leb_le in Hlo. apply Z.ltb_lt in Hhi.
    by rewrite Hlo, Hhi in Hst.
  - intros (Hst & Hopen & Hwrite).
    unfold download_file, bind, lift, raise_for_status, with_, open_wb,
      file_write, file_close.
    rewrite Hget.
    destruct ((400 <=? status_code r) && (status_code r <? 600)) eqn:Hb.
    { apply andb_true_iff in Hb as [Hlo%Z.leb_le Hhi%Z.ltb_lt]. lia. }
    unfold ret. rewrite Hopen, Hwrite. eauto.
Qed.

(** A fault of the write, after the file was opened: the error is raised
    and the destination holds only the bytes that got through, not what it
    held before. *)
Theorem download_file_write_fault url destination_path w r n e :
  requests_get url = inr r ->
  ~ (400 <= status_code r < 600) ->
  open_fault destination_path = None ->
  write_fault destination_path (content r) = Some (n, e) ->
  fst (download_file url destination_path w) = inl e /\
  w_fs (snd (download_file url destination_path w)) !! destination_path
    = Some (take n (content r)).
Proof.
  intros Hget Hst Hopen Hwrite.
  unfold download_file, bind, lift, raise_for_status, with_, open_wb,
    file_write, file_close.
  rewrite Hget.
  destruct ((400 <=? status_code r) && (status_code r <? 600)) eqn:Hb.
  { apply andb_true_iff in Hb as [Hlo%Z.leb_le Hhi%Z.ltb_lt]. lia. }
  unfold ret. rewrite Hopen, Hwrite. simpl.
  split; [done|]. by rewrite !lookup_insert_eq.
Qed.

(** A network fault or a fault of the open: the error is raised and the
    world is the one [download_file] started from. *)
Theorem download_file_fault_before_write url destination_path w e :
  requests_get url = inl e \/
  (exists r, requests_get url = inr r /\ ~ (400 <= status_code r < 600) /\
             open_fault destination_path = Some e) ->
  download_file url destination_path w = (inl e, w).
Proof.
  unfold download_file, bind, lift, raise_for_status, with_, open_wb.
  intros [Hget | (r & Hget & Hst & Hopen)]; rewrite Hget; [done|].
  destruct ((400 <=? status_code r) && (status_code r <? 600)) eqn:Hb.
  { apply andb_true_iff in Hb as [Hlo%Z.leb_le Hhi%Z.ltb_lt]. lia. }
  unfold ret. by rewrite Hopen.
Qed.

End FetcherFrame.

(** ** More on the sequencer: the first failure ends the run *)

Section SequencerFailure.
Context `{P : Platform}.

Lemma execute_all_first_failure cursor stmts k stmt w wk wh e :
  stmts !! k = Some stmt ->
  execute_all cursor (take k stmts) w = (inr tt, wk) ->
  execute stmt (w_warehouse wk) = (wh, Some e) ->
  execute_all cursor stmts w = (inl e, set_sql stmt wh wk) /\
  w_sql (set_sql stmt wh wk) = (w_sql w ++ take (S k) stmts)%list.
Proof.
  intros Hk Hpre Hexec.
  pose proof (execute_all_sql_complete cursor (take k stmts) w tt) as Hlog.
  rewrite Hpre in Hlog. specialize (Hlog eq_refl). simpl in Hlog.
  split.
  - rewrite <- (take_drop_middle stmts k stmt Hk) at 1.
    rewrite execute_all_app, Hpre, execute_all_cons.
    unfold cursor_execute. by rewrite Hexec.
  - simpl. by rewrite Hlog, (take_S_r _ _ _ Hk), app_assoc.
Qed.

Lemma execute_all_local_side cursor stmts w :
  let w' := snd (execute_all cursor stmts w) in
  w_fs w' = w_fs w /\ w_env w' = w_env w /\ w_stdout w' = w_stdout w /\
  w_open_files w' = w_open_files w /\ w_conn w' = w_conn w /\
  w_cursor w' = w_cursor w /\ w_connect_calls w' = w_connect_calls w.
Proof.
  revert w. induction stmts as [|stmt rest IH]; intros w; [simpl; auto 10|].
  rewrite execute_all_cons. unfold cursor_execute.
  destruct (execute stmt (w_warehouse w)) as [wh [e|]]; [simpl; auto 10|].
  destruct (IH (set_sql stmt wh w)) as (? & ? & ? & ? & ? & ? & ?).
  simpl in *. auto 10.
Qed.

Lemma first_four_without_truncate_and_copy
    stage_name schema table file_path file_name :
  let stmts := sequencer_statements stage_name schema table file_path file_name in
  (stmt_truncate schema table ∉ take 4 stmts) /\
  (stmt_copy schema table stage_name file_name ∉ take 4 stmts).
Proof.
  intros stmts. subst stmts. simpl.
  split; intros Hin;
    repeat (apply elem_of_cons in Hin as [Hin|Hin];
            [ first [ apply (f_equal (String.get 0)) in Hin;
                      vm_compute in Hin; discriminate
                    | apply (f_equal (String.get 1)) in Hin;
                      vm_compute in Hin; discriminate ] |]);
    by apply elem_of_nil in Hin.
Qed.

(** The sequencer stops at the first statement that raises: it raises that
    error, the statements sent are the list up to and including the failing
    one, and the statements after it are never sent. *)
Theorem prepare_snowflake_stage_stops_at_first_failure
    cursor stage_name schema table file_path file_name k stmt w wk wh e :
  let stmts := sequencer_statements stage_name schema table file_path file_name in
  stmts !! k = Some stmt ->
  execute_all cursor (take k stmts) w = (inr tt, wk) ->
  execute stmt (w_warehouse wk) = (wh, Some e) ->
  let run := prepare_snowflake_stage cursor stage_name schema table
               file_path file_name w in
  fst run = inl e /\
  w_warehouse (snd run) = wh /\
  w_sql (snd run) = (w_sql w ++ take (S k) stmts)%list.
Proof.
  intros stmts Hk Hpre Hexec run. subst run.
  rewrite prepare_snowflake_stage_execute_all. fold stmts.
  destruct (execute_all_first_failure _ _ _ _ _ _ _ _ Hk Hpre Hexec)
    as [-> Hlog].
  by rewrite <- Hlog.
Qed.

(** When one of the first four statements raises (file format, stage, PUT,
    LIST), neither the TRUNCATE nor the COPY of the destination table is
    among the statements the run has sent. *)
Theorem failure_before_truncate_leaves_table_statements_unsent
    cursor stage_name schema table file_path file_name k stmt w wk wh e :
  let stmts := sequencer_statements stage_name schema table file_path file_name in
  (k < 4)%nat ->
  stmts !! k = Some stmt ->
  execute_all cursor (take k stmts) w = (inr tt, wk) ->
  execute stmt (w_warehouse wk) = (wh, Some e) ->
  exists sent,
    w_sql (snd (prepare_snowflake_stage cursor stage_name schema table
                  file_path file_name w)) = (w_sql w ++ sent)%list /\
    (stmt_truncate schema table ∉ sent) /\
    (stmt_copy schema table stage_name file_name ∉ sent).
Proof.
  intros stmts Hlt Hk Hpre Hexec.
  rewrite prepare_snowflake_stage_execute_all. fold stmts.
  destruct (execute_all_first_failure _ _ _ _ _ _ _ _ Hk Hpre Hexec)
    as [-> Hlog].
  exists (take (S k) stmts). split; [done|].
  destruct (first_four_without_truncate_and_copy stage_name schema table
              file_path file_name) as [Ht Hc].
  fold stmts in Ht, Hc.
  assert (take (S k) stmts ⊆ take 4 stmts) as Hsub.
  { replace (take (S k) stmts) with (take (S k) (take 4 stmts)).
    - apply subseteq_take.
    - rewrite take_take. f_equal. lia. }
  split; intros Hin; [apply Ht | apply Hc]; by apply Hsub.
Qed.

End SequencerFailure.

(** ** More on the warehouse session: missing keys and untouched state *)

Ltac config_step :=
  match goal with
  | |- context [config_get ?c ?s ?k ?w0] =>
      let H := fresh "Hw" in
      let E := fresh "Hget" in
      pose proof (config_get_world c s k w0) as H;
      destruct (config_get c s k w0) as [[?|?] ?] eqn:E; simpl in H; subst
  end.

Section SessionFrame.
Context `{P : Platform}.

Lemma config_get_error config section key w e :
  fst (config_get config section key w) = inl e ->
  e = KeyError section \/ e = KeyError key.
Proof.
  unfold config_get, bind, getitem.
  destruct (config !! section) as [sec|]; simpl.
  - destruct (sec !! key); simpl; [discriminate|]. intros [= <-]. by right.
  - intros [= <-]. by left.
Qed.

Lemma config_get_any_world config section key w w' :
  fst (config_get config section key w) = fst (config_get config section key w').
Proof.
  unfold config_get, bind, getitem.
  destruct (config !! section) as [sec|]; [|done].
  simpl. by destruct (sec !! key).
Qed.

Lemma establish_snowflake_connection_frame config w :
  let w' := snd (establish_snowflake_connection config w) in
  w_fs w' = w_fs w /\ w_env w' = w_env w /\ w_stdout w' = w_stdout w /\
  w_open_files w' = w_open_files w /\ w_sql w' = w_sql w /\
  w_warehouse w' = w_warehouse w /\
  (w_connect_calls w' = w_connect_calls w \/
   exists args, w_connect_calls w' = (w_connect_calls w ++ [args])%list).
Proof.
  unfold establish_snowflake_connection, bind, os_getenv.
  do 5 (config_step; [simpl; auto 10|]).
  unfold sf_connect.
  match goal with |- context [connect_fault ?a] =>
    destruct (connect_fault a) end; simpl; eauto 10.
Qed.

(** When one of the five connection keys is missing from the configuration,
    [establish_snowflake_connection] raises a [KeyError] and [sf.connect] is
    not called: the world is the one it started from. *)
Theorem establish_connection_missing_key config w key e :
  key ∈ ["account"; "warehouse"; "database"; "schema"; "role"] ->
  fst (config_get config "snowflake" key w) = inl e ->
  snd (establish_snowflake_connection config w) = w /\
  exists k, fst (establish_snowflake_connection config w) = inl (KeyError k).
Proof.
  intros Hin Hfail.
  unfold establish_snowflake_connection, bind, os_getenv.
  do 5 (config_step;
        [ simpl; split; [done|];
          match goal with
          | H : config_get ?c ?s ?k ?w0 = (inl ?e0, _) |- _ =>
              let Hk := fresh "Hk" in
              pose proof (config_get_error c s k w0 e0) as Hk;
              rewrite H in Hk; destruct (Hk eq_refl) as [-> | ->]; eauto
          end |]).
  exfalso.
  repeat (apply elem_of_cons in Hin as [-> | Hin];
          [ match goal with
            | H : config_get _ _ ?k _ = _, F : fst (config_get _ _ ?k _) = _
              |- _ => rewrite H in F; discriminate F
            end |]).
  by apply elem_of_nil in Hin.
Qed.

(** The two ways through the warehouse block: it raises before any
    statement is sent, or the connection, the cursor and the four lookups
    went through and the block is the sequencer followed by the two exits. *)
Lemma warehouse_block_cases config local_file_path w :
  let run := warehouse_block config local_file_path w in
  (exists e, fst run = inl e /\ w_sql (snd run) = w_sql w) \/
  (exists stage_name schema table file_name w0,
     establish_snowflake_connection config w = (inr tt, w0) /\
     cursor_fault = None /\
     fst (config_get config "snowflake" "stage_name" w) = inr stage_name /\
     fst (config_get config "snowflake" "schema" w) = inr schema /\
     fst (config_get config "snowflake" "table" w) = inr table /\
     fst (config_get config "local" "file_name" w) = inr file_name /\
     let inner := prepare_snowflake_stage tt stage_name schema table
                    local_file_path file_name (set_cursor Open w0) in
     fst run = fst inner /\
     snd run =
       set_conn Closed
         (set_warehouse
            (session_exit match fst inner with
                          | inl e => Some e
                          | inr _ => None
                          end)
            (set_cursor Closed (snd inner)))).
Proof.
  intros run. subst run. unfold warehouse_block.
  match goal with
  | |- context [with_ _ conn_exit ?f] => set (inner := f)
  end.
  unfold with_.
  destruct (establish_snowflake_connection_frame config w)
    as (_ & _ & _ & _ & Hsql & _).
  destruct (establish_snowflake_connection config w) as [[e|[]] w0] eqn:Hest;
    simpl in Hsql.
  { left. exists e. simpl. by rewrite Hsql. }
  subst inner. unfold with_, conn_cursor, cursor_exit, conn_exit.
  destruct cursor_fault as [e|] eqn:Hcur.
  { left. exists e. simpl. by rewrite Hsql. }
  unfold bind.
  do 4 (config_step; [left; eexists; simpl; split; [reflexivity|done] |]).
  right.
  repeat match goal with
  | H : config_get ?c ?s ?k (set_cursor Open w0) = (inr ?v, _) |- _ =>
      assert (fst (config_get c s k w) = inr v)
        by (rewrite (config_get_any_world c s k w (set_cursor Open w0));
            by rewrite H);
      clear H
  end.
  eexists _, _, _, _, w0. repeat (split; [done|]).
  match goal with
  | |- context [prepare_snowflake_stage ?c ?a ?b ?d ?f ?g ?w1] =>
      destruct (prepare_snowflake_stage c a b d f g w1) as [[e|[]] w2]
  end; simpl; split; reflexivity.
Qed.

(** The warehouse block leaves the local side of the world alone. *)
Lemma warehouse_block_local_side config local_file_path w :
  let w' := snd (warehouse_block config local_file_path w) in
  w_fs w' = w_fs w /\ w_env w' = w_env w /\ w_stdout w' = w_stdout w /\
  w_open_files w' = w_open_files w.
Proof.
  unfold warehouse_block.
  match goal with
  | |- context [with_ _ conn_exit ?f] => set (inner := f)
  end.
  unfold with_.
  destruct (establish_snowflake_connection_frame config w)
    as (Hfs & Henv & Hout & Hopen & _).
  destruct (establish_snowflake_connection config w) as [[e|[]] w0];
    simpl in Hfs, Henv, Hout, Hopen; [simpl; auto|].
  subst inner. unfold with_, conn_cursor, cursor_exit, conn_exit.
  destruct cursor_fault as [e|]; [simpl; auto|].
  unfold bind.
  do 4 (config_step; [simpl; auto |]).
  match goal with
  | |- context [prepare_snowflake_stage ?c ?a ?b ?d ?f ?g ?w1] =>
      pose proof (execute_all_local_side c
                    (sequencer_statements a b d f g) w1) as Hloc;
      rewrite <- prepare_snowflake_stage_execute_all in Hloc;
      destruct (prepare_snowflake_stage c a b d f g w1) as [[e|[]] w2]
  end; simpl in Hloc; destruct Hloc as (H1 & H2 & H3 & H4 & _); simpl;
    rewrite H1, H2, H3, H4; auto.
Qed.

(** When the connection fails, the cursor cannot be created, or one of the
    keys [stage_name], [schema], [table], [file_name] is missing, the
    warehouse block raises and no statement is sent. *)
Theorem warehouse_block_sends_nothing_without_session_and_names
    config local_file_path w :
  (exists e, fst (establish_snowflake_connection config w) = inl e) \/
  (exists e, cursor_fault = Some e) \/
  (exists e, fst (config_get config "snowflake" "stage_name" w) = inl e) \/
  (exists e, fst (config_get config "snowflake" "schema" w) = inl e) \/
  (exists e, fst (config_get config "snowflake" "table" w) = inl e) \/
  (exists e, fst (config_get config "local" "file_name" w) = inl e) ->
  let run := warehouse_block config local_file_path w in
  (exists e, fst run = inl e) /\
  w_sql (snd run) = w_sql w.
Proof.
  intros Hfail run.
  destruct (warehouse_block_cases config local_file_path w)
    as [(e & He & Hsql) | (sn & sc & tb & fn & w0 & Hest & Hcur & H1 & H2 & H3
                           & H4 & _)].
  - eauto.
  - exfalso.
    destruct Hfail as [[e He] | [[e He] | [[e He] | [[e He] | [[e He] | [e He]]]]]];
      try rewrite Hest in He; simpl in He; congruence.
Qed.

End SessionFrame.

(** ** The pipeline as a whole *)

Section PipelineFacts.
Context `{P : Platform}.

Lemma load_config_world w : snd (load_config w) = w.
Proof.
  unfold load_config, toml_load. by destruct (w_fs w !! "config.toml").
Qed.

Lemma local_file_path_of_world config w :
  snd (local_file_path_of config w) = w.
Proof.
  unfold local_file_path_of, bind. do 2 (config_step; [done|]). done.
Qed.

Lemma local_file_path_of_inv config w path :
  fst (local_file_path_of config w) = inr path ->
  exists destination_folder file_name,
    fst (config_get config "local" "destination_folder" w)
      = inr destination_folder /\
    fst (config_get config "local" "file_name" w) = inr file_name /\
    path = os_path_join destination_folder file_name.
Proof.
  unfold local_file_path_of, bind. do 2 (config_step; [discriminate|]).
  simpl. intros [= <-]. eauto.
Qed.

(** The stages of [upload_file_to_snowflake]: it stops with the world
    untouched before the download, or stops at the download, or stops in
    the warehouse block, or goes through and prints. *)
Lemma upload_file_to_snowflake_cases w :
  let run := upload_file_to_snowflake w in
  (exists e, run = (inl e, w)) \/
  (exists config path url,
     fst (load_config w) = inr config /\
     fst (local_file_path_of config w) = inr path /\
     fst (config_get config "source" "url" w) = inr url /\
     let fetched := download_file url path w in
     ((exists e, fst fetched = inl e /\ run = (inl e, snd fetched)) \/
      (exists u, fst fetched = inr u /\
         let loaded := warehouse_block config path (snd fetched) in
         ((exists e, fst loaded = inl e /\ run = (inl e, snd loaded)) \/
          (exists u', fst loaded = inr u' /\
             run = (inr tt,
                    set_stdout
                      (fun out =>
                         (out ++ ["File uploaded to Snowflake successfully."])%list)
                      (snd loaded))))))).
Proof.
  intros run.
  assert (run = upload_file_to_snowflake w) as Hrun by reflexivity.
  clearbody run. unfold upload_file_to_snowflake, bind at 1 in Hrun.
  pose proof (load_config_world w) as Hw.
  destruct (load_config w) as [[e|config] w1]; simpl in Hw; subst w1;
    [left; eauto|].
  unfold bind at 1 in Hrun.
  pose proof (local_file_path_of_world config w) as Hw.
  destruct (local_file_path_of config w) as [[e|path] w1] eqn:Hpath;
    simpl in Hw; subst w1; [left; eauto|].
  unfold bind at 1 in Hrun.
  pose proof (config_get_world config "source" "url" w) as Hw.
  destruct (config_get config "source" "url" w) as [[e|url] w1] eqn:Hurl;
    simpl in Hw; subst w1; [left; eauto|].
  right. exists config, path, url. simpl.
  split; [done|]. split; [by rewrite Hpath|]. split; [by rewrite Hurl|].
  unfold bind at 1 in Hrun.
  destruct (download_file url path w) as [[e|u] w1]; simpl; [left; eauto|].
  right. exists u. split; [done|].
  unfold bind, print in Hrun.
  destruct (warehouse_block config path w1) as [[e|u'] w2]; simpl;
    [left; eauto|right; eauto].
Qed.

(** When the configuration cannot be loaded (no file, or [toml] rejects
    it), [lambda_handler] answers 500 with the error text and has done
    nothing but print the error: no file written, no connection attempted,
    no statement sent. *)
Theorem lambda_handler_config_load_failure
    {Event Context : Type} (event : Event) (context : Context) w e :
  fst (load_config w) = inl e ->
  lambda_handler event context w =
  (inr (mkLambdaResult 500 ("Error uploading file to Snowflake: " +:+ str e)),
   set_stdout (fun out => (out ++ ["Error: " +:+ str e])%list) w).
Proof.
  intros Hload.
  unfold lambda_handler, try_except, upload_file_to_snowflake, bind at 1 2.
  pose proof (load_config_world w) as Hw.
  destruct (load_config w) as [[e'|config] w1]; simpl in *; [|discriminate].
  injection Hload as ->. subst w1. reflexivity.
Qed.

(** A key that is missing when the local path or the source URL is looked
    up stops [upload_file_to_snowflake] with a [KeyError] before anything
    is downloaded: the world is untouched. *)
Theorem upload_missing_key_before_download w config e :
  fst (load_config w) = inr config ->
  fst (local_file_path_of config w) = inl e \/
  ((exists path, fst (local_file_path_of config w) = inr path) /\
   fst (config_get config "source" "url" w) = inl e) ->
  upload_file_to_snowflake w = (inl e, w) /\
  exists key, e = KeyError key.
Proof.
  intros Hload Hmiss.
  unfold upload_file_to_snowflake, bind at 1.
  pose proof (load_config_world w) as Hw.
  destruct (load_config w) as [[e'|config'] w1]; simpl in *; [discriminate|].
  injection Hload as ->. subst w1.
  unfold bind at 1.
  pose proof (local_file_path_of_world config w) as Hw.
  destruct (local_file_path_of config w) as [[e'|path] w1] eqn:Hpath;
    simpl in Hw; subst w1.
  - destruct Hmiss as [[= ->] | [[p [=]] _]]. split; [done|].
    revert Hpath. unfold local_file_path_of, bind.
    do 2 (config_step;
          [ intros [= <-];
            match goal with
            | H : config_get ?c ?s ?k ?w0 = (inl ?e0, _) |- _ =>
                let Hk := fresh "Hk" in
                pose proof (config_get_error c s k w0 e0) as Hk;
                rewrite H in Hk; destruct (Hk eq_refl) as [-> | ->]; eauto
            end |]).
    discriminate.
  - destruct Hmiss as [[=] | [_ Hurl]].
    unfold bind at 1.
    destruct (config_get_error _ _ _ _ _ Hurl) as [-> | ->];
      (split; [|eauto]);
      pose proof (config_get_world config "source" "url" w) as Hw;
      destruct (config_get config "source" "url" w) as [[e'|url] w1];
      simpl in *; try discriminate; injection Hurl as ->; by subst w1.
Qed.

End PipelineFacts.

(** ** What an invocation has done, by its outcome *)

Section InvocationFacts.
Context `{P : Platform}.

Lemma lambda_handler_unfold {Event Context : Type}
    (event : Event) (context : Context) w :
  lambda_handler event context w =
  match upload_file_to_snowflake w with
  | (inl e, w1) =>
      (inr (mkLambdaResult 500 ("Error uploading file to Snowflake: " +:+ str e)),
       set_stdout (fun out => (out ++ ["Error: " +:+ str e])%list) w1)
  | (inr _, w1) =>
      (inr (mkLambdaResult 200 "File uploaded to Snowflake successfully."), w1)
  end.
Proof.
  unfold lambda_handler, try_except, bind at 1.
  by destruct (upload_file_to_snowflake w) as [[e|u] w1].
Qed.

Lemma warehouse_block_sql config local_file_path w :
  let run := warehouse_block config local_file_path w in
  w_sql (snd run) = w_sql w \/
  exists n stage_name schema table file_name,
    fst (config_get config "snowflake" "stage_name" w) = inr stage_name /\
    fst (config_get config "snowflake" "schema" w) = inr schema /\
    fst (config_get config "snowflake" "table" w) = inr table /\
    fst (config_get config "local" "file_name" w) = inr file_name /\
    w_sql (snd run) =
      (w_sql w ++ take n (sequencer_statements stage_name schema table
                            local_file_path file_name))%list.
Proof.
  intros run. subst run.
  destruct (warehouse_block_cases config local_file_path w)
    as [(e & _ & Hsql) | (sn & sc & tb & fn & w0 & Hest & _ & H1 & H2 & H3
                          & H4 & _ & Hsnd)]; [by left|].
  right.
  destruct (execute_all_sql_prefix tt
    (sequencer_statements sn sc tb local_file_path fn) (set_cursor Open w0))
    as [n Hn].
  rewrite <- prepare_snowflake_stage_execute_all in Hn.
  destruct (establish_snowflake_connection_frame config w)
    as (_ & _ & _ & _ & Hsql0 & _).
  rewrite Hest in Hsql0. simpl in Hsql0, Hn.
  exists n, sn, sc, tb, fn. repeat (split; [done|]).
  rewrite Hsnd. simpl. by rewrite Hn, Hsql0.
Qed.

(** When the download raises, [upload_file_to_snowflake] raises the same
    error and the warehouse side is untouched: no [sf.connect] call, no
    statement sent, the warehouse and both handles as they were. *)
Theorem upload_download_failure_skips_warehouse w config path url e :
  fst (load_config w) = inr config ->
  fst (local_file_path_of config w) = inr path ->
  fst (config_get config "source" "url" w) = inr url ->
  fst (download_file url path w) = inl e ->
  let run := upload_file_to_snowflake w in
  fst run = inl e /\
  w_connect_calls (snd run) = w_connect_calls w /\
  w_sql (snd run) = w_sql w /\
  w_warehouse (snd run) = w_warehouse w /\
  w_conn (snd run) = w_conn w /\ w_cursor (snd run) = w_cursor w.
Proof.
  intros Hload Hpath Hurl Hfetch run. subst run.
  destruct (download_file_warehouse_side url path w)
    as (_ & _ & Hc & Hk & Hcalls & Hsql & Hwh).
  destruct (upload_file_to_snowflake_cases w)
    as [[e' Hrun] | (config' & path' & url' & Hload' & Hpath' & Hurl' & Hrest)].
  - rewrite Hrun. simpl.
    unfold upload_file_to_snowflake, bind at 1 in Hrun.
    pose proof (load_config_world w) as Hw.
    destruct (load_config w) as [[e0|c0] w1]; simpl in *; [discriminate|].
    injection Hload as ->. subst w1. unfold bind at 1 in Hrun.
    pose proof (local_file_path_of_world config w) as Hw.
    destruct (local_file_path_of config w) as [[e0|p0] w1]; simpl in *;
      [discriminate|].
    injection Hpath as ->. subst w1. unfold bind at 1 in Hrun.
    pose proof (config_get_world config "source" "url" w) as Hw.
    destruct (config_get config "source" "url" w) as [[e0|u0] w1]; simpl in *;
      [discriminate|].
    injection Hurl as ->. subst w1. unfold bind at 1 in Hrun.
    destruct (download_file url path w) as [[e0|u0] w1]; simpl in *;
      [|discriminate].
    injection Hfetch as ->. injection Hrun as -> ->. done.
  - rewrite Hload in Hload'. injection Hload' as <-.
    rewrite Hpath in Hpath'. injection Hpath' as <-.
    rewrite Hurl in Hurl'. injection Hurl' as <-.
    simpl in Hrest.
    destruct Hrest as [(e' & He' & ->) | (u & Hu & _)].
    + rewrite Hfetch in He'. injection He' as <-. done.
    + rewrite Hfetch in Hu. discriminate.
Qed.

(** What a returning [establish_snowflake_connection] went through: the
    five lookups and a [sf.connect] that did not fault. *)
Lemma establish_snowflake_connection_returns config w u w0 :
  establish_snowflake_connection config w = (inr u, w0) ->
  exists acc wh db sc ro,
    fst (config_get config "snowflake" "account" w) = inr acc /\
    fst (config_get config "snowflake" "warehouse" w) = inr wh /\
    fst (config_get config "snowflake" "database" w) = inr db /\
    fst (config_get config "snowflake" "schema" w) = inr sc /\
    fst (config_get config "snowflake" "role" w) = inr ro /\
    w0 = set_conn Open
           (log_connect
              (mkConnectArgs (w_env w !! "SNOWFLAKE_USER")
                 (w_env w !! "SNOWFLAKE_PASSWORD") acc wh db sc ro) w).
Proof.
  unfold establish_snowflake_connection, bind, os_getenv.
  do 5 (config_step; [discriminate|]).
  unfold sf_connect.
  match goal with |- context [connect_fault ?a] =>
    destruct (connect_fault a) end; [discriminate|].
  intros [= _ <-]. eexists _, _, _, _, _. by repeat split.
Qed.

(** A result with status 200 means the whole pipeline ran.  The
    configuration loaded and held every key the program reads: the two of
    [local], the URL of [source] and the seven of [snowflake].  The local
    path holds the body of the response; [sf.connect] was called once, with
    the credentials of the environment and the five connection keys; the six
    statements built from the configured names were sent in order; the
    connection and the cursor are closed; and the one [print] call of the
    invocation is the success message. *)
Theorem lambda_handler_200_means_pipeline_completed
    {Event Context : Type} (event : Event) (context : Context) w res w' :
  lambda_handler event context w = (inr res, w') ->
  statusCode res = 200 ->
  exists config destination_folder file_name url r
         acc wh db ro stage_name schema table,
    fst (load_config w) = inr config /\
    fst (config_get config "local" "destination_folder" w)
      = inr destination_folder /\
    fst (config_get config "local" "file_name" w) = inr file_name /\
    fst (config_get config "source" "url" w) = inr url /\
    fst (config_get config "snowflake" "account" w) = inr acc /\
    fst (config_get config "snowflake" "warehouse" w) = inr wh /\
    fst (config_get config "snowflake" "database" w) = inr db /\
    fst (config_get config "snowflake" "schema" w) = inr schema /\
    fst (config_get config "snowflake" "role" w) = inr ro /\
    fst (config_get config "snowflake" "stage_name" w) = inr stage_name /\
    fst (config_get config "snowflake" "table" w) = inr table /\
    requests_get url = inr r /\
    let path := os_path_join destination_folder file_name in
    w_fs w' !! path = Some (content r) /\
    w_connect_calls w' =
      (w_connect_calls w ++
       [mkConnectArgs (w_env w !! "SNOWFLAKE_USER")
          (w_env w !! "SNOWFLAKE_PASSWORD") acc wh db schema ro])%list /\
    w_sql w' =
      (w_sql w ++ sequencer_statements stage_name schema table path file_name)%list /\
    w_conn w' = Closed /\ w_cursor w' = Closed /\
    w_stdout w' =
      (w_stdout w ++ ["File uploaded to Snowflake successfully."])%list.
Proof.
  rewrite lambda_handler_unfold. intros Hrun Hstatus.
  destruct (upload_file_to_snowflake_cases w)
    as [[e Hup] | (config & path & url & Hload & Hpath & Hurl & Hrest)].
  { rewrite Hup in Hrun. injection Hrun as <- <-. discriminate. }
  simpl in Hrest.
  destruct Hrest as [(e & _ & Hup) | (u & Hfetch & Hrest)].
  { rewrite Hup in Hrun. injection Hrun as <- <-. discriminate. }
  destruct Hrest as [(e & _ & Hup) | (u' & Hblock & Hup)].
  { rewrite Hup in Hrun. injection Hrun as <- <-. discriminate. }
  rewrite Hup in Hrun. injection Hrun as _ <-. clear Hup Hstatus.
  destruct (local_file_path_of_inv _ _ _ Hpath) as (folder & fname & Hf & Hn & ->).
  set (path := os_path_join folder fname) in *.
  destruct (download_file url path w) as [r1 w1] eqn:Hdl.
  simpl in Hfetch, Hblock. subst r1.
  destruct (download_file_returns _ _ _ _ _ Hdl)
    as (r & Hget & _ & _ & _ & Hfs).
  pose proof (download_file_warehouse_side url path w) as Hside.
  rewrite Hdl in Hside. simpl in Hside.
  destruct Hside as (Henv & Hout & _ & _ & Hcalls & Hsql & _).
  destruct (warehouse_block_local_side config path w1)
    as (Hfs' & _ & Hout' & _).
  destruct (warehouse_block_cases config path w1)
    as [(e & He & _) | (sn & sc & tb & fn & w0 & Hest & _ & H1 & H2 & H3 & H4
                        & Hfst & Hsnd)].
  { simpl in *. rewrite Hblock in He. discriminate. }
  destruct (establish_snowflake_connection_returns _ _ _ _ Hest)
    as (acc & wh & db & sc' & ro & Ha & Hw & Hd & Hs & Hr & Hw0).
  rewrite (config_get_any_world _ _ _ w1 w) in H1.
  rewrite (config_get_any_world _ _ _ w1 w) in H2.
  rewrite (config_get_any_world _ _ _ w1 w) in H3.
  rewrite (config_get_any_world _ _ _ w1 w) in H4.
  rewrite (config_get_any_world _ _ _ w1 w) in Ha.
  rewrite (config_get_any_world _ _ _ w1 w) in Hw.
  rewrite (config_get_any_world _ _ _ w1 w) in Hd.
  rewrite (config_get_any_world _ _ _ w1 w) in Hs.
  rewrite (config_get_any_world _ _ _ w1 w) in Hr.
  rewrite Hn in H4. injection H4 as <-.
  rewrite H2 in Hs. injection Hs as <-.
  rewrite Henv in Hw0.
  simpl in Hfst, Hsnd. rewrite Hblock in Hfst.
  exists config, folder, fname, url, r, acc, wh, db, ro, sn, sc, tb.
  repeat (split; [done|]). fold path. simpl.
  pose proof (execute_all_local_side tt
                (sequencer_statements sn sc tb path fname)
                (set_cursor Open w0)) as Hloc.
  rewrite <- prepare_snowflake_stage_execute_all in Hloc.
  simpl in Hloc. destruct Hloc as (_ & _ & _ & _ & _ & _ & Hcalls').
  split; [|split; [|split; [|split; [|split]]]].
  - rewrite Hfs', Hfs. by rewrite lookup_insert_eq.
  - rewrite Hsnd. simpl. rewrite Hcalls', Hw0. simpl. by rewrite Hcalls.
  - rewrite Hsnd. simpl.
    rewrite prepare_snowflake_stage_execute_all in *.
    rewrite (execute_all_sql_complete _ _ _ u' (eq_sym Hfst)). simpl.
    destruct (establish_snowflake_connection_frame config w1)
      as (_ & _ & _ & _ & Hsql0 & _).
    rewrite Hest in Hsql0. simpl in Hsql0. by rewrite Hsql0, Hsql.
  - by rewrite Hsnd.
  - by rewrite Hsnd.
  - by rewrite Hout', Hout.
Qed.

(** Every invocation calls [print] exactly once: [w_stdout] gains one
    entry, the argument of that call, which is the success message or
    [Error: ] followed by [str(e)] as it is (a text with line breaks is
    still one call). *)
Theorem lambda_handler_prints_once
    {Event Context : Type} (event : Event) (context : Context) w :
  w_stdout (snd (lambda_handler event context w)) =
  (w_stdout w ++
   [match fst (upload_file_to_snowflake w) with
    | inr _ => "File uploaded to Snowflake successfully."
    | inl e => "Error: " +:+ str e
    end])%list.
Proof.
  rewrite lambda_handler_unfold.
  destruct (upload_file_to_snowflake_cases w)
    as [[e Hup] | (config & path & url & _ & _ & _ & Hrest)].
  { by rewrite Hup. }
  simpl in Hrest.
  pose proof (download_file_warehouse_side url path w) as Hside.
  simpl in Hside. destruct Hside as (_ & Hout & _).
  destruct Hrest as [(e & _ & Hup) | (u & _ & Hrest)].
  { rewrite Hup. simpl. by rewrite Hout. }
  destruct (warehouse_block_local_side config path
              (snd (download_file url path w))) as (_ & _ & Hout' & _).
  destruct Hrest as [(e & _ & Hup) | (u' & _ & Hup)];
    rewrite Hup; simpl; by rewrite Hout', Hout.
Qed.

(** Whatever the outcome, the statements an invocation has sent are none,
    or a prefix of the six statements built from the configured names and
    the local path. *)
Theorem lambda_handler_sends_prefix_of_the_sequence
    {Event Context : Type} (event : Event) (context : Context) w :
  let w' := snd (lambda_handler event context w) in
  w_sql w' = w_sql w \/
  exists config path n stage_name schema table file_name,
    fst (load_config w) = inr config /\
    fst (local_file_path_of config w) = inr path /\
    fst (config_get config "snowflake" "stage_name" w) = inr stage_name /\
    fst (config_get config "snowflake" "schema" w) = inr schema /\
    fst (config_get config "snowflake" "table" w) = inr table /\
    fst (config_get config "local" "file_name" w) = inr file_name /\
    w_sql w' =
      (w_sql w ++ take n (sequencer_statements stage_name schema table
                            path file_name))%list.
Proof.
  intros w'. subst w'. rewrite lambda_handler_unfold.
  destruct (upload_file_to_snowflake_cases w)
    as [[e Hup] | (config & path & url & Hload & Hpath & _ & Hrest)].
  { left. by rewrite Hup. }
  simpl in Hrest.
  pose proof (download_file_warehouse_side url path w) as Hside.
  simpl in Hside. destruct Hside as (_ & _ & _ & _ & _ & Hsql & _).
  destruct Hrest as [(e & _ & Hup) | (u & _ & Hrest)].
  { left. rewrite Hup. simpl. done. }
  set (w1 := snd (download_file url path w)) in *.
  assert (w_sql (snd (warehouse_block config path w1)) = w_sql w \/
          exists n sn sc tb fn,
            fst (config_get config "snowflake" "stage_name" w) = inr sn /\
            fst (config_get config "snowflake" "schema" w) = inr sc /\
            fst (config_get config "snowflake" "table" w) = inr tb /\
            fst (config_get config "local" "file_name" w) = inr fn /\
            w_sql (snd (warehouse_block config path w1)) =
              (w_sql w ++ take n (sequencer_statements sn sc tb path fn))%list)
    as Hblock.
  { destruct (warehouse_block_sql config path w1)
      as [Hsame | (n & sn & sc & tb & fn & H1 & H2 & H3 & H4 & Hs)].
    - left. by rewrite Hsame.
    - right. exists n, sn, sc, tb, fn.
      rewrite (config_get_any_world _ _ _ w1 w) in H1.
      rewrite (config_get_any_world _ _ _ w1 w) in H2.
      rewrite (config_get_any_world _ _ _ w1 w) in H3.
      rewrite (config_get_any_world _ _ _ w1 w) in H4.
      repeat (split; [done|]). by rewrite Hs, Hsql. }
  destruct Hrest as [(e & _ & Hup) | (u' & _ & Hup)]; rewrite Hup; simpl;
    (destruct Hblock as [Hsame | (n & sn & sc & tb & fn & H1 & H2 & H3 & H4 & Hs)];
     [ by left
     | right; exists config, path, n, sn, sc, tb, fn; by repeat split ]).
Qed.

Lemma upload_file_to_snowflake_after_download w config path url u w1 :
  fst (load_config w) = inr config ->
  fst (local_file_path_of config w) = inr path ->
  fst (config_get config "source" "url" w) = inr url ->
  download_file url path w = (inr u, w1) ->
  upload_file_to_snowflake w =
  (warehouse_block config path ;;;
   print "File uploaded to Snowflake successfully.") w1.
Proof.
  intros Hload Hpath Hurl Hdl.
  unfold upload_file_to_snowflake, bind at 1.
  pose proof (load_config_world w) as Hw.
  destruct (load_config w) as [[e0|c0] w2]; simpl in *; [discriminate|].
  injection Hload as ->. subst w2. unfold bind at 1.
  pose proof (local_file_path_of_world config w) as Hw.
  destruct (local_file_path_of config w) as [[e0|p0] w2]; simpl in *;
    [discriminate|].
  injection Hpath as ->. subst w2. unfold bind at 1.
  pose proof (config_get_world config "source" "url" w) as Hw.
  destruct (config_get config "source" "url" w) as [[e0|u0] w2];
    simpl in *; [discriminate|].
  injection Hurl as ->. subst w2. unfold bind at 1.
  by rewrite Hdl.
Qed.

(** Once the download has returned, the file it stored stays as it is
    through the rest of the invocation, whatever happens in the warehouse
    block: nothing removes or rewrites it. *)
Theorem lambda_handler_keeps_the_download
    {Event Context : Type} (event : Event) (context : Context)
    w config path url u w1 :
  fst (load_config w) = inr config ->
  fst (local_file_path_of config w) = inr path ->
  fst (config_get config "source" "url" w) = inr url ->
  download_file url path w = (inr u, w1) ->
  w_fs (snd (lambda_handler event context w)) = w_fs w1 /\
  exists r, requests_get url = inr r /\
            w_fs (snd (lambda_handler event context w)) !! path
              = Some (content r).
Proof.
  intros Hload Hpath Hurl Hdl.
  assert (w_fs (snd (lambda_handler event context w)) = w_fs w1) as Hfs.
  { rewrite lambda_handler_unfold.
    rewrite (upload_file_to_snowflake_after_download _ _ _ _ _ _
               Hload Hpath Hurl Hdl).
    unfold bind, print.
    destruct (warehouse_block_local_side config path w1) as (Hfs1 & _).
    by destruct (warehouse_block config path w1) as [[e0|u0] w2]. }
  split; [done|].
  destruct (download_file_returns _ _ _ _ _ Hdl) as (r & Hget & _ & _ & _ & Hw1).
  exists r. split; [done|]. rewrite Hfs, Hw1. by rewrite lookup_insert_eq.
Qed.

End InvocationFacts.

(** ** The local path *)

Section LocalPathFacts.
Context `{P : Platform}.

Lemma os_path_join_suffix a b : exists before, os_path_join a b = before +:+ b.
Proof.
  unfold os_path_join. destruct (startswith_sep b).
  - by exists EmptyString.
  - destruct (bool_decide (a = EmptyString) || endswith_sep a).
    + by exists a.
    + exists (a +:+ "/"). by rewrite append_assoc.
Qed.

(** The local path always ends with the configured file name, and with an
    empty destination folder it is the file name itself: no separator is
    put in front of it. *)
Theorem local_path_ends_with_file_name
    config local destination_folder file_name w :
  config !! "local" = Some local ->
  local !! "destination_folder" = Some destination_folder ->
  local !! "file_name" = Some file_name ->
  exists path,
    local_file_path_of config w = (inr path, w) /\
    (exists before, path = before +:+ file_name) /\
    (destination_folder = EmptyString -> path = file_name).
Proof.
  intros Hl Hf Hn. exists (os_path_join destination_folder file_name).
  split; [|split].
  - unfold local_file_path_of, bind.
    rewrite (config_get_found _ _ _ _ _ _ Hl Hf).
    by rewrite (config_get_found _ _ _ _ _ _ Hl Hn).
  - apply os_path_join_suffix.
  - intros ->. unfold os_path_join. by destruct (startswith_sep file_name).
Qed.

End LocalPathFacts.

(** ** Runs on the concrete platform, continued *)

Lemma download_file_touches_only_destination_witness :
  let run := download_file (P := demo_ok) "https://example.com/data.csv"
               "/tmp/data.csv" (demo_world (P := demo_ok) demo_rows) in
  w_fs (snd run) !! "config.toml" = Some [] /\ w_open_files (snd run) = [].
Proof.
  destruct (download_file_touches_only_destination (P := demo_ok)
    "https://example.com/data.csv" "/tmp/data.csv"
    (demo_world (P := demo_ok) demo_rows)) as [Hother Hopen].
  split.
  - rewrite (Hother "config.toml"); [reflexivity|discriminate].
  - apply Hopen. apply not_elem_of_nil.
Defined.

Lemma download_file_returns_iff_witness :
  exists u w', download_file (P := demo_ok) "https://example.com/data.csv"
                 "/tmp/data.csv" (demo_world (P := demo_ok) demo_rows)
               = (inr u, w').
Proof.
  apply (download_file_returns_iff (P := demo_ok)
    "https://example.com/data.csv" "/tmp/data.csv"
    (demo_world (P := demo_ok) demo_rows) (response_with 200 "OK")).
  - reflexivity.
  - split; [simpl; lia|]. split; reflexivity.
Defined.

Lemma download_file_write_fault_witness :
  let run := download_file (P := demo_disk_full) "https://example.com/data.csv"
               "/tmp/data.csv" (demo_world (P := demo_disk_full) demo_rows) in
  fst run = inl (OSError "[Errno 28] No space left on device") /\
  w_fs (snd run) !! "/tmp/data.csv" = Some [x31; x2c; x32].
Proof.
  apply (download_file_write_fault (P := demo_disk_full)
    "https://example.com/data.csv" "/tmp/data.csv"
    (demo_world (P := demo_disk_full) demo_rows) (response_with 200 "OK") 3).
  - reflexivity.
  - simpl. lia.
  - reflexivity.
  - reflexivity.
Defined.

Lemma download_file_fault_before_write_witness :
  download_file (P := demo_network_down) "https://example.com/data.csv"
    "/tmp/data.csv" (demo_world (P := demo_network_down) demo_rows) =
  (inl (RequestException "Connection refused"),
   demo_world (P := demo_network_down) demo_rows).
Proof.
  apply (download_file_fault_before_write (P := demo_network_down)).
  left. reflexivity.
Defined.

Lemma prepare_snowflake_stage_stops_at_first_failure_witness :
  let run := prepare_snowflake_stage (P := demo_put_fails) tt "MY_STAGE"
               "PUBLIC" "SALES" "/tmp/data.csv" "data.csv"
               (demo_world (P := demo_put_fails) demo_rows) in
  fst run = inl (SnowflakeError "Insufficient privileges on stage") /\
  w_warehouse (snd run) = ["9,9,9"] /\
  w_sql (snd run) =
    [ "CREATE OR REPLACE FILE FORMAT COMMA_CSV TYPE ='CSV' FIELD_DELIMITER = ',';";
      "CREATE OR REPLACE STAGE MY_STAGE FILE_FORMAT = COMMA_CSV";
      "PUT 'file:///tmp/data.csv' @MY_STAGE" ].
Proof.
  apply (prepare_snowflake_stage_stops_at_first_failure (P := demo_put_fails)
    tt "MY_STAGE" "PUBLIC" "SALES" "/tmp/data.csv" "data.csv" 2
    "PUT 'file:///tmp/data.csv' @MY_STAGE"
    (demo_world (P := demo_put_fails) demo_rows)
    (snd (execute_all (P := demo_put_fails) tt
       (take 2 (sequencer_statements "MY_STAGE" "PUBLIC" "SALES"
                  "/tmp/data.csv" "data.csv"))
       (demo_world (P := demo_put_fails) demo_rows)))).
  - reflexivity.
  - vm_compute. reflexivity.
  - vm_compute. reflexivity.
Defined.

Lemma failure_before_truncate_leaves_table_statements_unsent_witness :
  exists sent,
    w_sql (snd (prepare_snowflake_stage (P := demo_put_fails) tt "MY_STAGE"
                  "PUBLIC" "SALES" "/tmp/data.csv" "data.csv"
                  (demo_world (P := demo_put_fails) demo_rows))) = sent /\
    ("TRUNCATE TABLE PUBLIC.SALES;" ∉ sent).
Proof.
  destruct (failure_before_truncate_leaves_table_statements_unsent
    (P := demo_put_fails)
    tt "MY_STAGE" "PUBLIC" "SALES" "/tmp/data.csv" "data.csv" 2
    "PUT 'file:///tmp/data.csv' @MY_STAGE"
    (demo_world (P := demo_put_fails) demo_rows)
    (snd (execute_all (P := demo_put_fails) tt
       (take 2 (sequencer_statements "MY_STAGE" "PUBLIC" "SALES"
                  "/tmp/data.csv" "data.csv"))
       (demo_world (P := demo_put_fails) demo_rows)))
    ["9,9,9"] (SnowflakeError "Insufficient privileges on stage"))
    as (sent & Hsent & Htruncate & _).
  - lia.
  - reflexivity.
  - vm_compute. reflexivity.
  - vm_compute. reflexivity.
  - exists sent. split; [exact Hsent|exact Htruncate].
Defined.

Lemma establish_connection_missing_key_witness :
  snd (establish_snowflake_connection (P := demo_ok)
         (delete "snowflake" demo_config)
         (demo_world (P := demo_ok) demo_rows)) =
  demo_world (P := demo_ok) demo_rows.
Proof.
  refine (proj1 (establish_connection_missing_key (P := demo_ok)
    (delete "snowflake" demo_config) (demo_world (P := demo_ok) demo_rows)
    "role" (KeyError "snowflake") _ _)).
  - set_solver.
  - vm_compute. reflexivity.
Defined.

Lemma warehouse_block_sends_nothing_without_session_and_names_witness :
  w_sql (snd (warehouse_block (P := demo_ok) demo_config_without_table
                "/tmp/data.csv" (demo_world (P := demo_ok) demo_rows))) = [].
Proof.
  refine (proj2 (warehouse_block_sends_nothing_without_session_and_names
    (P := demo_ok) demo_config_without_table "/tmp/data.csv"
    (demo_world (P := demo_ok) demo_rows) _)).
  do 4 right. left. exists (KeyError "table"). vm_compute. reflexivity.
Defined.

Lemma lambda_handler_config_load_failure_witness :
  fst (lambda_handler (P := demo_ok) tt tt
         (mkWorld (P := demo_ok) ∅ ∅ [] [] Absent Absent [] [] demo_rows)) =
  inr (mkLambdaResult 500
         "Error uploading file to Snowflake: [Errno 2] No such file or directory: 'config.toml'").
Proof.
  rewrite (lambda_handler_config_load_failure (P := demo_ok) tt tt
    (mkWorld (P := demo_ok) ∅ ∅ [] [] Absent Absent [] [] demo_rows)
    (FileNotFoundError "config.toml")).
  - reflexivity.
  - vm_compute. reflexivity.
Defined.

Lemma upload_missing_key_before_download_witness :
  upload_file_to_snowflake (P := demo_with_config demo_config_without_source)
    (demo_world (P := demo_with_config demo_config_without_source) demo_rows) =
  (inl (KeyError "source"),
   demo_world (P := demo_with_config demo_config_without_source) demo_rows).
Proof.
  refine (proj1 (upload_missing_key_before_download
    (P := demo_with_config demo_config_without_source)
    (demo_world (P := demo_with_config demo_config_without_source) demo_rows)
    demo_config_without_source (KeyError "source") _ _)).
  - vm_compute. reflexivity.
  - right. split.
    + exists "/tmp/data.csv". vm_compute. reflexivity.
    + vm_compute. reflexivity.
Defined.

Lemma upload_download_failure_skips_warehouse_witness :
  let run := upload_file_to_snowflake (P := demo_not_found)
               (demo_world (P := demo_not_found) demo_rows) in
  fst run = inl (HTTPError 404 "Not Found" "https://example.com/data.csv") /\
  w_connect_calls (snd run) = [] /\ w_sql (snd run) = [] /\
  w_warehouse (snd run) = ["9,9,9"] /\
  w_conn (snd run) = Absent /\ w_cursor (snd run) = Absent.
Proof.
  apply (upload_download_failure_skips_warehouse (P := demo_not_found)
    (demo_world (P := demo_not_found) demo_rows) demo_config "/tmp/data.csv"
    "https://example.com/data.csv");
    vm_compute; reflexivity.
Defined.

Lemma lambda_handler_200_means_pipeline_completed_witness :
  exists stage_name schema table,
    w_sql (snd (lambda_handler (P := demo_ok) tt tt
                  (demo_world (P := demo_ok) demo_rows))) =
    sequencer_statements stage_name schema table "/tmp/data.csv" "data.csv".
Proof.
  destruct (lambda_handler_200_means_pipeline_completed (P := demo_ok) tt tt
    (demo_world (P := demo_ok) demo_rows)
    (mkLambdaResult 200 "File uploaded to Snowflake successfully.")
    (snd (lambda_handler (P := demo_ok) tt tt
            (demo_world (P := demo_ok) demo_rows))))
    as (config & folder & fname & url & r & acc & wh & db & ro & sn & sc & tb
        & Hload & Hf & Hn & _ & _ & _ & _ & _ & _ & _ & _ & _ & _ & _ & Hsql
        & _).
  - vm_compute. reflexivity.
  - reflexivity.
  - exists sn, sc, tb.
    assert (inr demo_config = inr config :> Exception + Config) as [= <-]
      by (rewrite <- Hload; vm_compute; reflexivity).
    vm_compute in Hf. vm_compute in Hn.
    injection Hf as <-. injection Hn as <-. exact Hsql.
Defined.

Lemma lambda_handler_keeps_the_download_witness :
  w_fs (snd (lambda_handler (P := demo_copy_fails) tt tt
               (demo_world (P := demo_copy_fails) demo_rows)))
    !! "/tmp/data.csv" = Some demo_body.
Proof.
  destruct (lambda_handler_keeps_the_download (P := demo_copy_fails) tt tt
    (demo_world (P := demo_copy_fails) demo_rows) demo_config "/tmp/data.csv"
    "https://example.com/data.csv" tt
    (snd (download_file (P := demo_copy_fails) "https://example.com/data.csv"
            "/tmp/data.csv" (demo_world (P := demo_copy_fails) demo_rows))))
    as (_ & r & Hget & Hfs);
    [vm_compute; reflexivity | vm_compute; reflexivity
    |vm_compute; reflexivity | vm_compute; reflexivity |].
  injection Hget as <-. exact Hfs.
Defined.

Lemma local_path_ends_with_file_name_witness :
  exists path,
    local_file_path_of (P := demo_ok)
      {[ "local" := {[ "destination_folder" := EmptyString;
                       "file_name" := "data.csv" ]} ]}
      (demo_world (P := demo_ok) demo_rows)
    = (inr path, demo_world (P := demo_ok) demo_rows) /\
    path = "data.csv".
Proof.
  destruct (local_path_ends_with_file_name (P := demo_ok)
    {[ "local" := {[ "destination_folder" := EmptyString;
                     "file_name" := "data.csv" ]} ]}
    {[ "destination_folder" := EmptyString; "file_name" := "data.csv" ]}
    EmptyString "data.csv" (demo_world (P := demo_ok) demo_rows))
    as (path & Hpath & _ & Hempty);
    [vm_compute; reflexivity | vm_compute; reflexivity
    |vm_compute; reflexivity |].
  exists path. split; [exact Hpath|]. apply Hempty. reflexivity.
Defined.
